(** * The field normaliser of the PixieDust notebook

    A shallow embedding of the two cleansing functions of
    [notebooks/intro-to-pixie-dust.ipynb], [getNumericVal] and
    [deriveGender], together with the parts of the Python 3.6 runtime they
    call: the [int] constructor on strings and [re.match] on the pattern
    ['^age\-(\d+)$'].

    The notebook's kernel is "Python 3.6 with Spark" (CPython 3.6.8), and
    the runtime is modelled as that version has it: [int] accepts single
    underscores between digits and converts digit strings of any length,
    and the character database is Unicode 9.0.0.

    Python strings are sequences of Unicode code points, Python integers are
    unbounded, and a call either returns a value or raises an exception. *)

From Stdlib Require Import Ascii String List NArith ZArith Bool Lia.
Import ListNotations.

Local Open Scope N_scope.

(** ** Strings *)

Abbreviation codepoint := N (only parsing).
Abbreviation str := (list N) (only parsing).

Definition ord (a : ascii) : codepoint := N_of_ascii a.

(** [u "..."] is the Python string with the given (ASCII) characters. *)
Definition u (s : string) : str := map ord (list_ascii_of_string s).

Definition str_eqb (a b : str) : bool :=
  if list_eq_dec N.eq_dec a b then true else false.

(** ** Values, exceptions and outcomes *)

Inductive value :=
| VNone
| VInt (z : Z)
| VStr (s : str).

Inductive exn := ValueError | TypeError | IndexError | re_error.

Definition exn_eqb (a b : exn) : bool :=
  match a, b with
  | ValueError, ValueError | TypeError, TypeError
  | IndexError, IndexError | re_error, re_error => true
  | _, _ => false
  end.

Inductive outcome (A : Type) :=
| Return (a : A)
| Raise (e : exn).
Arguments Return {A} a.
Arguments Raise {A} e.

Definition bind {A B} (m : outcome A) (k : A -> outcome B) : outcome B :=
  match m with
  | Return a => k a
  | Raise e => Raise e
  end.

Notation "x <- m ;; k" := (bind m (fun x => k))
  (at level 61, m at next level, right associativity).

(** [try: body  except e: handler] *)
Definition try_except {A} (body : outcome A) (e : exn) (handler : outcome A)
  : outcome A :=
  match body with
  | Return a => Return a
  | Raise e' => if exn_eqb e' e then handler else Raise e'
  end.

(** [x == y] on the values of this model; values of different types are
    never equal. *)
Definition py_eq (x y : value) : bool :=
  match x, y with
  | VNone, VNone => true
  | VInt a, VInt b => Z.eqb a b
  | VStr a, VStr b => str_eqb a b
  | _, _ => false
  end.

(** [x in l] for a list [l]. *)
Definition py_in (x : value) (l : list value) : bool :=
  existsb (fun y => py_eq y x) l.

(** ** The Unicode character database of CPython 3.6 (Unicode 9.0.0) *)

Module Unicode.

(** [_Py_ascii_whitespace]: tab to carriage return, the four separators
    0x1C..0x1F and the space. *)
Definition _Py_ascii_whitespace (ch : codepoint) : bool :=
  ((0x09 <=? ch) && (ch <=? 0x0D)) || ((0x1C <=? ch) && (ch <=? 0x1F))
  || (ch =? 0x20).

(** The code points of [_PyUnicode_IsWhitespace]: bidirectional type WS, B
    or S, or category Zs. *)
Definition whitespace : list codepoint :=
  [0x0009; 0x000A; 0x000B; 0x000C; 0x000D; 0x001C; 0x001D; 0x001E; 0x001F;
   0x0020; 0x0085; 0x00A0; 0x1680; 0x2000; 0x2001; 0x2002; 0x2003; 0x2004;
   0x2005; 0x2006; 0x2007; 0x2008; 0x2009; 0x200A; 0x2028; 0x2029; 0x202F;
   0x205F; 0x3000].

Definition _PyUnicode_IsWhitespace (ch : codepoint) : bool :=
  existsb (N.eqb ch) whitespace.

Definition Py_UNICODE_ISSPACE (ch : codepoint) : bool :=
  if ch <? 128 then _Py_ascii_whitespace ch else _PyUnicode_IsWhitespace ch.

(** The characters of category Nd come in runs of ten, zero to nine; this
    is the code point of the zero of each run. *)
Definition decimal_zeros : list codepoint :=
  [0x0030; 0x0660; 0x06F0; 0x07C0; 0x0966; 0x09E6; 0x0A66; 0x0AE6; 0x0B66;
   0x0BE6; 0x0C66; 0x0CE6; 0x0D66; 0x0DE6; 0x0E50; 0x0ED0; 0x0F20; 0x1040;
   0x1090; 0x17E0; 0x1810; 0x1946; 0x19D0; 0x1A80; 0x1A90; 0x1B50; 0x1BB0;
   0x1C40; 0x1C50; 0xA620; 0xA8D0; 0xA900; 0xA9D0; 0xA9F0; 0xAA50; 0xABF0;
   0xFF10; 0x104A0; 0x11066; 0x110F0; 0x11136; 0x111D0; 0x112F0; 0x11450;
   0x114D0; 0x11650; 0x116C0; 0x11730; 0x118E0; 0x11C50; 0x16A60; 0x16B50;
   0x1D7CE; 0x1D7D8; 0x1D7E2; 0x1D7EC; 0x1D7F6; 0x1E950].

Definition in_run (ch zero : codepoint) : bool :=
  (zero <=? ch) && (ch <? zero + 10).

(** [_PyUnicode_ToDecimalDigit]: the decimal value of [ch]; [None] stands
    for the C function's -1. *)
Definition _PyUnicode_ToDecimalDigit (ch : codepoint) : option N :=
  option_map (fun zero => ch - zero) (find (in_run ch) decimal_zeros).

Definition Py_UNICODE_TODECIMAL := _PyUnicode_ToDecimalDigit.

Definition Py_UNICODE_ISDECIMAL (ch : codepoint) : bool :=
  match _PyUnicode_ToDecimalDigit ch with
  | Some _ => true
  | None => false
  end.

End Unicode.

(** ** [int(x)]: conversion of a string to an integer (Objects/longobject.c) *)

Module Long.
Import Unicode.

(** [Py_ISSPACE] of pyctype.h: the six white-space characters of the C
    locale. *)
Definition Py_ISSPACE (c : N) : bool :=
  ((0x09 <=? c) && (c <=? 0x0D)) || (c =? 0x20).

(** The table [_PyLong_DigitValue]: digits and letters to their value in
    bases up to 36, every other character to 37. *)
Definition _PyLong_DigitValue (c : N) : N :=
  if (ord "0" <=? c) && (c <=? ord "9") then c - ord "0"
  else if (ord "a" <=? c) && (c <=? ord "z") then c - ord "a" + 10
  else if (ord "A" <=? c) && (c <=? ord "Z") then c - ord "A" + 10
  else 37.

Definition base : N := 10.

(** [_PyUnicode_TransformDecimalAndSpaceToASCII]: characters below 127 are
    kept, other white space becomes a space, other decimal digits become
    the ASCII digit of the same value, and at the first character that is
    none of these the buffer ends with a question mark. *)
Fixpoint _PyUnicode_TransformDecimalAndSpaceToASCII (unicode : str)
  : list N :=
  match unicode with
  | [] => []
  | ch :: unicode' =>
      if ch <? 127 then
        ch :: _PyUnicode_TransformDecimalAndSpaceToASCII unicode'
      else if Py_UNICODE_ISSPACE ch then
        ord " " :: _PyUnicode_TransformDecimalAndSpaceToASCII unicode'
      else
        match Py_UNICODE_TODECIMAL ch with
        | None => [ord "?"]
        | Some decimal =>
            (ord "0" + decimal)
              :: _PyUnicode_TransformDecimalAndSpaceToASCII unicode'
        end
  end.

(** A pointer into the NUL-terminated buffer is the list of the characters
    from it to the end of the buffer; [deref p] is the character at [p],
    the NUL at the end of the buffer. *)
Definition deref (p : list N) : N := hd 0 p.

(** The loop that advances [str] over white space, stopping at the NUL. *)
Fixpoint skip_spaces (str : list N) : list N :=
  match str with
  | [] => []
  | c :: str' =>
      if negb (c =? 0) && Py_ISSPACE c then skip_spaces str' else str
  end.

(** The first loop of the decimal branch: it runs over the digits and
    underscores, and fails at two underscores in a row or at a trailing
    underscore.  The result is the characters passed over and the pointer
    [scan] where the loop stopped. *)
Fixpoint scan_numeric (scan : list N) (prev : N)
  : option (list N * list N) :=
  match scan with
  | [] => if prev =? ord "_" then None else Some ([], [])
  | c :: scan' =>
      if (_PyLong_DigitValue c <? base) || (c =? ord "_") then
        if (c =? ord "_") && (prev =? ord "_") then None
        else
          match scan_numeric scan' c with
          | None => None
          | Some (span, stop) => Some (c :: span, stop)
          end
      else if prev =? ord "_" then None
      else Some ([], scan)
  end.

(** The second loop, [while (str < scan)]: it skips the underscores and
    multiplies and adds.  The C code does so in groups of [convwidth]
    digits on a multi-precision number; this is the same sum on [Z]. *)
Fixpoint convert (span : list N) (z : Z) : Z :=
  match span with
  | [] => z
  | c :: span' =>
      if c =? ord "_" then convert span' z
      else convert span' (z * Z.of_N base + Z.of_N (_PyLong_DigitValue c))%Z
  end.

(** [PyLong_FromString(str, &end, 10)]: the integer and the pointer [end],
    or [None] when it sets ValueError. *)
Definition PyLong_FromString (str : list N) : option (Z * list N) :=
  let str := skip_spaces str in
  let '(sign, str) :=
    if deref str =? ord "+" then (1%Z, tl str)
    else if deref str =? ord "-" then ((-1)%Z, tl str)
    else (1%Z, str) in
  if deref str =? ord "_" then None
  else
    match scan_numeric str 0 with
    | None => None
    | Some (span, scan) =>
        match span with
        | [] => None
        | _ :: _ =>
            let z := (sign * convert span 0)%Z in
            let str := skip_spaces scan in
            if negb (deref str =? 0) then None else Some (z, str)
        end
    end.

(** [PyLong_FromUnicodeObject(u, 10)]: the conversion succeeds when
    [PyLong_FromString] does and has read the whole buffer. *)
Definition PyLong_FromUnicodeObject (unicode : str) : outcome Z :=
  let buffer := _PyUnicode_TransformDecimalAndSpaceToASCII unicode in
  match PyLong_FromString buffer with
  | Some (result, []) => Return result
  | Some (_, _ :: _) => Raise ValueError
  | None => Raise ValueError
  end.

End Long.

Module builtins.

(** [int(x)]: a string is parsed in base 10, an integer is returned as it
    is, and [None] is a TypeError. *)
Definition int (x : value) : outcome Z :=
  match x with
  | VInt z => Return z
  | VStr s => Long.PyLong_FromUnicodeObject s
  | VNone => Raise TypeError
  end.

End builtins.

(** ** [re.match]: the fragment of the regular expression engine (sre) that
    the notebook's pattern uses *)

Module Sre.
Import Unicode.

Inductive at_code := AT_BEGINNING | AT_END.

Inductive category := CATEGORY_DIGIT.

(** Operations that match exactly one character. *)
Inductive single :=
| LITERAL (c : codepoint)
| IN_CATEGORY (k : category).

(** A pattern is a sequence of operations.  [REPEAT_ONE min x] is the
    greedy repetition of a one-character operation, at least [min] times;
    [MARK (2*i)] and [MARK (2*i+1)] record where group [i+1] starts and
    ends. *)
Inductive op :=
| AT (a : at_code)
| ONE (x : single)
| REPEAT_ONE (min : nat) (x : single)
| MARK (n : nat).

Definition is_alnum (c : codepoint) : bool :=
  ((ord "0" <=? c) && (c <=? ord "9"))
  || ((ord "a" <=? c) && (c <=? ord "z"))
  || ((ord "A" <=? c) && (c <=? ord "Z")).

Definition unsupported : str := u "*?{}[]|.".

(** The parser, for patterns made of [^], [$], literal characters, escaped
    punctuation, [\d], groups and [+] after a one-character item.  [code]
    is the operations so far, last first; [opened] the groups still open;
    [groups] the number of groups seen.  A pattern outside this fragment
    gives [None]. *)
Fixpoint parse (pattern : str) (code : list op) (opened : list nat)
  (groups : nat) : option (list op) :=
  match pattern with
  | [] =>
      match opened with
      | [] => Some (rev code)
      | _ :: _ => None
      end
  | c :: pattern' =>
      if c =? ord "^" then
        parse pattern' (AT AT_BEGINNING :: code) opened groups
      else if c =? ord "$" then
        parse pattern' (AT AT_END :: code) opened groups
      else if c =? ord "(" then
        parse pattern' (MARK (2 * groups) :: code) (groups :: opened)
          (S groups)
      else if c =? ord ")" then
        match opened with
        | g :: opened' =>
            parse pattern' (MARK (2 * g + 1) :: code) opened' groups
        | [] => None
        end
      else if c =? ord "+" then
        match code with
        | ONE x :: code' =>
            parse pattern' (REPEAT_ONE 1 x :: code') opened groups
        | _ => None
        end
      else if c =? ord "\" then
        match pattern' with
        | [] => None
        | e :: pattern'' =>
            if e =? ord "d" then
              parse pattern'' (ONE (IN_CATEGORY CATEGORY_DIGIT) :: code)
                opened groups
            else if is_alnum e then None
            else parse pattern'' (ONE (LITERAL e) :: code) opened groups
        end
      else if existsb (N.eqb c) unsupported then None
      else parse pattern' (ONE (LITERAL c) :: code) opened groups
  end.

Definition compile (pattern : str) : option (list op) :=
  parse pattern [] [] 0%nat.

Definition SRE_IS_LINEBREAK (ch : codepoint) : bool := ch =? 10.

(** In a str pattern [\d] is the Unicode category: [SRE_UNI_IS_DIGIT]. *)
Definition category_match (k : category) (ch : codepoint) : bool :=
  match k with
  | CATEGORY_DIGIT => Py_UNICODE_ISDECIMAL ch
  end.

Definition single_match (x : single) (ch : codepoint) : bool :=
  match x with
  | LITERAL c => ch =? c
  | IN_CATEGORY k => category_match k ch
  end.

(** [AT_BEGINNING] holds at the start of the string; [AT_END] at its end
    and also before a line break that is its last character. *)
Definition at_match (a : at_code) (ptr : nat) (rest : str) : bool :=
  match a with
  | AT_BEGINNING => Nat.eqb ptr 0
  | AT_END =>
      match rest with
      | [] => true
      | [ch] => SRE_IS_LINEBREAK ch
      | _ :: _ :: _ => false
      end
  end.

(** The number of characters from [rest] on that [x] matches. *)
Fixpoint count (x : single) (rest : str) : nat :=
  match rest with
  | [] => 0%nat
  | ch :: rest' => if single_match x ch then S (count x rest') else 0%nat
  end.

(** Try the tail of the pattern after [min + extra] repetitions, then
    after one repetition less, down to [min]. *)
Fixpoint backtrack {A} (tail : nat -> option A) (min extra : nat)
  : option A :=
  match tail (min + extra)%nat with
  | Some r => Some r
  | None =>
      match extra with
      | O => None
      | S extra' => backtrack tail min extra'
      end
  end.

Definition marks := list (nat * nat).

(** The matcher: [ptr] is the position in the string, [rest] the
    characters from there on.  It gives the position where the match ends
    and the marks set on the way. *)
Fixpoint sre_match (pattern : list op) (ptr : nat) (rest : str)
  (mk : marks) : option (nat * marks) :=
  match pattern with
  | [] => Some (ptr, mk)
  | AT a :: pattern' =>
      if at_match a ptr rest then sre_match pattern' ptr rest mk else None
  | ONE x :: pattern' =>
      match rest with
      | [] => None
      | ch :: rest' =>
          if single_match x ch then sre_match pattern' (S ptr) rest' mk
          else None
      end
  | REPEAT_ONE min x :: pattern' =>
      let n := count x rest in
      if (n <? min)%nat then None
      else
        backtrack
          (fun k => sre_match pattern' (ptr + k)%nat (skipn k rest) mk)
          min (n - min)%nat
  | MARK i :: pattern' => sre_match pattern' ptr rest ((i, ptr) :: mk)
  end.

(** A match object. *)
Record Match := {
  string : str;
  endpos : nat;
  lastmarks : marks
}.

Definition mark (m : Match) (i : nat) : option nat :=
  option_map snd (find (fun e => Nat.eqb (fst e) i) (lastmarks m)).

Definition slice (s : str) (b e : nat) : str := firstn (e - b) (skipn b s).

(** [m.group(g)]: the text of group [g], group 0 being the whole match;
    IndexError when the pattern has no such group. *)
Definition group (m : Match) (g : nat) : outcome value :=
  match g with
  | O => Return (VStr (slice (string m) 0 (endpos m)))
  | S i =>
      match mark m (2 * i), mark m (2 * i + 1) with
      | Some b, Some e => Return (VStr (slice (string m) b e))
      | _, _ => Raise IndexError
      end
  end.

End Sre.

Module re.

(** [re.match(pattern, string)]: a match object when the pattern matches at
    the start of the string, and [None] otherwise. *)
Definition match_ (pattern : str) (string : value)
  : outcome (option Sre.Match) :=
  match Sre.compile pattern with
  | None => Raise re_error
  | Some code =>
      match string with
      | VStr s =>
          Return
            (option_map
               (fun r => {| Sre.string := s; Sre.endpos := fst r;
                            Sre.lastmarks := snd r |})
               (Sre.sre_match code 0 s []))
      | _ => Raise TypeError
      end
  end.

End re.

(** ** The notebook's functions *)

(** [[
def getNumericVal(col):
    try:
      return int(col)
    except ValueError:
      # age-33
      match = re.match('^age\-(\d+)$', col)
      if match:
        try:
          return int(match.group(1))
        except ValueError:
          return None
      return None
]] *)
Definition getNumericVal (col : value) : outcome value :=
  try_except (z <- builtins.int col ;; Return (VInt z)) ValueError
    (match_ <- re.match_ (u "^age\-(\d+)$") col ;;
     match match_ with
     | Some m =>
         try_except
           (g <- Sre.group m 1 ;; z <- builtins.int g ;; Return (VInt z))
           ValueError (Return VNone)
     | None => Return VNone
     end).

(** [[
def deriveGender(col):
    if col in ['Mr.', 'Master.']:
        return 'male'
    elif col in ['Mrs.', 'Miss.']:
        return 'female'
    else:
        return 'unknown';
]] *)
Definition deriveGender (col : value) : outcome value :=
  if py_in col [VStr (u "Mr."); VStr (u "Master.")] then
    Return (VStr (u "male"))
  else if py_in col [VStr (u "Mrs."); VStr (u "Miss.")] then
    Return (VStr (u "female"))
  else
    Return (VStr (u "unknown")).

(** ** The vocabulary of the specification *)

(** One or more decimal digits. *)
Definition decimal_digits (ds : str) : Prop :=
  ds <> [] /\ Forall (fun ch => Unicode.Py_UNICODE_ISDECIMAL ch = true) ds.

Definition digit_value (ch : codepoint) : Z :=
  match Unicode.Py_UNICODE_TODECIMAL ch with
  | Some d => Z.of_N d
  | None => 0%Z
  end.

(** The number that a string of digits denotes in base 10. *)
Fixpoint digits_value (ds : str) : Z :=
  match ds with
  | [] => 0%Z
  | ch :: ds' =>
      (digit_value ch * 10 ^ Z.of_nat (length ds') + digits_value ds')%Z
  end.

(** White space as [str.isspace] sees it. *)
Definition is_space (ch : codepoint) : bool := Unicode.Py_UNICODE_ISSPACE ch.

(** A value with extra white space: it starts or ends with white space. *)
Definition extra_whitespace (s : str) : bool :=
  match s with
  | [] => false
  | ch :: _ => is_space ch || is_space (last s ch)
  end.

(** The white space that [int] skips around a number: of the ASCII
    characters the six of the C locale, and every other white space. *)
Definition int_space (ch : codepoint) : bool :=
  if ch <? 127 then Long.Py_ISSPACE ch else Unicode.Py_UNICODE_ISSPACE ch.

(** An optional sign and the factor it stands for. *)
Inductive sign : str -> Z -> Prop :=
| sign_none : sign [] 1%Z
| sign_plus : sign [ord "+"] 1%Z
| sign_minus : sign [ord "-"] (-1)%Z.

(** A numeral: decimal digits with, possibly, single underscores between
    them. *)
Inductive numeral : str -> Prop :=
| numeral_digit ch :
    Unicode.Py_UNICODE_ISDECIMAL ch = true -> numeral [ch]
| numeral_cons ch ds :
    Unicode.Py_UNICODE_ISDECIMAL ch = true -> numeral ds ->
    numeral (ch :: ds)
| numeral_underscore ch ds :
    Unicode.Py_UNICODE_ISDECIMAL ch = true -> numeral ds ->
    numeral (ch :: ord "_" :: ds).

Definition not_underscore (ch : codepoint) : bool := negb (ch =? ord "_").

Definition numeral_value (ds : str) : Z :=
  digits_value (filter not_underscore ds).

(** A base-10 integer literal as [int] reads it: white space, an optional
    sign, a numeral, white space. *)
Definition int_literal (s : str) (z : Z) : Prop :=
  exists ws1 sg sgn ds ws2,
    s = ws1 ++ sg ++ ds ++ ws2
    /\ forallb int_space ws1 = true /\ forallb int_space ws2 = true
    /\ sign sg sgn /\ numeral ds /\ z = (sgn * numeral_value ds)%Z.

(** The language of the pattern in the specification's words: the prefix
    [age-] and one or more decimal digits. *)
Definition age_token (s ds : str) : Prop :=
  s = u "age-" ++ ds /\ decimal_digits ds.

(** What one character becomes in the buffer that [int] parses. *)
Definition asciify (ch : codepoint) : option N :=
  if ch <? 127 then Some ch
  else if Unicode.Py_UNICODE_ISSPACE ch then Some (ord " ")
  else option_map (N.add (ord "0")) (Unicode.Py_UNICODE_TODECIMAL ch).

(** Where the scanning loop of [PyLong_FromString] stops: at a character
    that is neither a digit nor an underscore (the NUL at the end of the
    buffer is one). *)
Definition stops (rest : list N) : Prop :=
  (Long._PyLong_DigitValue (Long.deref rest) <? Long.base)
  || (Long.deref rest =? ord "_") = false.

(** What that loop has passed over when it stops without an error, [prev]
    being the character before. *)
Definition scanned (span : list N) (prev : N) : Prop :=
  if prev =? 95 then numeral span
  else span = [] \/ numeral span \/ exists b, span = 95 :: b /\ numeral b.

(** A string and the buffer it is transformed to, character by character. *)
Definition asciified : list N -> list N -> Prop :=
  Forall2 (fun ch c => asciify ch = Some c).

(** The notebook's pattern and the operations it compiles to. *)
Definition age_pattern : str := u "^age\-(\d+)$".

Definition age_code : list Sre.op :=
  [Sre.AT Sre.AT_BEGINNING;
   Sre.ONE (Sre.LITERAL (ord "a")); Sre.ONE (Sre.LITERAL (ord "g"));
   Sre.ONE (Sre.LITERAL (ord "e")); Sre.ONE (Sre.LITERAL (ord "-"));
   Sre.MARK 0; Sre.REPEAT_ONE 1 (Sre.IN_CATEGORY Sre.CATEGORY_DIGIT);
   Sre.MARK 1; Sre.AT Sre.AT_END].

(** The match object of a match of the pattern with [n] digits. *)
Definition age_match (s : str) (n : nat) : Sre.Match :=
  {| Sre.string := s; Sre.endpos := 4 + n;
     Sre.lastmarks := [(1, 4 + n); (0, 4)]%nat |}.

(** The language that the pattern accepts: the prefix, the digits and, at
    most, one line break after them. *)
Definition matches_age_pattern (s ds : str) : Prop :=
  exists tail,
    s = u "age-" ++ ds ++ tail /\ decimal_digits ds
    /\ (tail = [] \/ tail = [10]).

(** The characters an integer literal is made of. *)
Definition literal_char (ch : codepoint) : bool :=
  int_space ch || (ch =? ord "+") || (ch =? ord "-")
  || Unicode.Py_UNICODE_ISDECIMAL ch || (ch =? ord "_").

(** A digit zero, of any script. *)
Definition zero_digit (ch : codepoint) : Prop :=
  Unicode.Py_UNICODE_ISDECIMAL ch = true /\ digit_value ch = 0%Z.

(** The range of Spark's [IntegerType], which the notebook declares as the
    type of the cleansed AGE column. *)
Definition fits_IntegerType (z : Z) : Prop :=
  (- 2 ^ 31 <= z <= 2 ^ 31 - 1)%Z.

(** The four information separators U+001C..U+001F: white space for
    [str.isspace], but not for [int]. *)
Definition separator (ch : codepoint) : bool := (0x1C <=? ch) && (ch <=? 0x1F).

(** White space other than the separators. *)
Definition plain_space (ch : codepoint) : bool :=
  is_space ch && negb (separator ch).

(** The declared output domains. *)
Definition integer_or_None (r : outcome value) : Prop :=
  r = Return VNone \/ exists z : Z, r = Return (VInt z).

Definition nonnegative_or_None (r : outcome value) : Prop :=
  r = Return VNone \/ exists z : Z, (0 <= z)%Z /\ r = Return (VInt z).

Definition gender_token (r : outcome value) : Prop :=
  r = Return (VStr (u "male")) \/ r = Return (VStr (u "female"))
  \/ r = Return (VStr (u "unknown")).

Arguments Unicode._PyUnicode_ToDecimalDigit : simpl never.
Arguments Unicode.Py_UNICODE_TODECIMAL : simpl never.
Arguments Unicode.Py_UNICODE_ISDECIMAL : simpl never.
Arguments Unicode._PyUnicode_IsWhitespace : simpl never.
Arguments Unicode.Py_UNICODE_ISSPACE : simpl never.

(** * Facts about the runtime *)

Section UnicodeFacts.
Import Unicode.

Lemma in_run_spec ch zero :
  in_run ch zero = true <-> zero <= ch /\ ch < zero + 10.
Proof.
  unfold in_run. rewrite andb_true_iff, N.leb_le, N.ltb_lt. tauto.
Qed.

Lemma todecimal_run ch d :
  _PyUnicode_ToDecimalDigit ch = Some d ->
  exists zero, In zero decimal_zeros /\ zero <= ch /\ ch < zero + 10
               /\ d = ch - zero.
Proof.
  unfold _PyUnicode_ToDecimalDigit.
  destruct (find (in_run ch) decimal_zeros) as [zero|] eqn:E;
    [|discriminate].
  intros [= <-]. apply find_some in E as [Hin Hrun].
  apply in_run_spec in Hrun. exists zero. tauto.
Qed.

Lemma todecimal_lt ch d : _PyUnicode_ToDecimalDigit ch = Some d -> d < 10.
Proof.
  intros H. apply todecimal_run in H as (zero & _ & Hlo & Hhi & ->). lia.
Qed.

(** Below 127 the only decimal digits are the ASCII ones. *)
Lemma todecimal_ascii ch d :
  ch < 127 -> _PyUnicode_ToDecimalDigit ch = Some d ->
  48 <= ch /\ ch <= 57 /\ d = ch - 48.
Proof.
  intros Hlow H. apply todecimal_run in H as (zero & Hin & Hlo & Hhi & ->).
  unfold decimal_zeros in Hin. simpl in Hin.
  repeat (destruct Hin as [<-|Hin]; [lia|]). contradiction.
Qed.

Lemma ascii_digit_todecimal ch :
  48 <= ch -> ch <= 57 -> _PyUnicode_ToDecimalDigit ch = Some (ch - 48).
Proof.
  intros Hlo Hhi. unfold _PyUnicode_ToDecimalDigit, decimal_zeros.
  cbn [find]. replace (in_run ch 48) with true; [reflexivity|].
  symmetry. apply in_run_spec. lia.
Qed.

(** No white space is a decimal digit. *)
Lemma space_not_decimal ch :
  Py_UNICODE_ISSPACE ch = true -> _PyUnicode_ToDecimalDigit ch = None.
Proof.
  unfold Py_UNICODE_ISSPACE. destruct (ch <? 128) eqn:Hlow.
  - apply N.ltb_lt in Hlow. unfold _Py_ascii_whitespace. intros Hsp.
    rewrite !orb_true_iff, !andb_true_iff, !N.leb_le, N.eqb_eq in Hsp.
    destruct (_PyUnicode_ToDecimalDigit ch) as [d|] eqn:E; [|reflexivity].
    apply todecimal_run in E as (zero & Hin & Hlo & Hhi & ->).
    unfold decimal_zeros in Hin. simpl in Hin.
    repeat (destruct Hin as [<-|Hin]; [lia|]). contradiction.
  - unfold _PyUnicode_IsWhitespace. intros Hsp.
    apply existsb_exists in Hsp as (w & Hin & Heq).
    apply N.eqb_eq in Heq. subst w.
    unfold whitespace in Hin. simpl in Hin.
    repeat (destruct Hin as [<-|Hin]; [reflexivity|]). contradiction.
Qed.

Lemma isdecimal_spec ch :
  Py_UNICODE_ISDECIMAL ch = true <->
  exists d, _PyUnicode_ToDecimalDigit ch = Some d.
Proof.
  unfold Py_UNICODE_ISDECIMAL.
  destruct (_PyUnicode_ToDecimalDigit ch) as [d|]; split;
    try discriminate; eauto. intros [d [=]].
Qed.

End UnicodeFacts.

Ltac ords :=
  repeat match goal with
    | |- context [ord ?a] =>
        let v := eval vm_compute in (ord a) in change (ord a) with v
    | H : context [ord ?a] |- _ =>
        let v := eval vm_compute in (ord a) in change (ord a) with v in H
    end.

Ltac bools :=
  repeat rewrite ?andb_true_iff, ?orb_true_iff, ?andb_false_iff,
    ?orb_false_iff, ?negb_true_iff, ?negb_false_iff, ?N.leb_le, ?N.ltb_lt,
    ?N.eqb_eq, ?N.leb_gt, ?N.ltb_ge, ?N.eqb_neq in *.

Section LongFacts.
Import Unicode Long.

Lemma isdecimal_low ch :
  ch < 127 -> Py_UNICODE_ISDECIMAL ch = true -> 48 <= ch /\ ch <= 57.
Proof.
  intros Hlow H. apply isdecimal_spec in H as [d H].
  apply todecimal_ascii in H; tauto.
Qed.

Lemma ascii_isdecimal ch :
  48 <= ch -> ch <= 57 -> Py_UNICODE_ISDECIMAL ch = true.
Proof.
  intros. apply isdecimal_spec. eauto using ascii_digit_todecimal.
Qed.

Lemma digit_value_ascii ch :
  48 <= ch -> ch <= 57 -> digit_value ch = Z.of_N (ch - 48).
Proof.
  intros. unfold digit_value, Py_UNICODE_TODECIMAL.
  now rewrite ascii_digit_todecimal.
Qed.

Lemma DigitValue_digit c :
  48 <= c -> c <= 57 -> _PyLong_DigitValue c = c - 48.
Proof.
  intros. unfold _PyLong_DigitValue. ords.
  destruct ((48 <=? c) && (c <=? 57)) eqn:E; [reflexivity|].
  bools. lia.
Qed.

Lemma DigitValue_lt c :
  _PyLong_DigitValue c < 10 <-> 48 <= c /\ c <= 57.
Proof.
  unfold _PyLong_DigitValue. ords.
  destruct ((48 <=? c) && (c <=? 57)) eqn:E1; bools; [lia|].
  destruct ((97 <=? c) && (c <=? 122)) eqn:E2; bools; [lia|].
  destruct ((65 <=? c) && (c <=? 90)) eqn:E3; bools; lia.
Qed.

Lemma ISSPACE_spec c :
  Py_ISSPACE c = true <-> (9 <= c /\ c <= 13) \/ c = 32.
Proof. unfold Py_ISSPACE. bools. tauto. Qed.

(** *** The loops of [PyLong_FromString] *)

Lemma skip_spaces_app ws str :
  forallb Py_ISSPACE ws = true ->
  skip_spaces (ws ++ str) = skip_spaces str.
Proof.
  induction ws as [|c ws IH]; simpl; [reflexivity|].
  intros H. apply andb_true_iff in H as [Hc Hws]. rewrite Hc.
  apply ISSPACE_spec in Hc.
  destruct (c =? 0) eqn:E; bools; [lia|]. simpl. auto.
Qed.

Lemma skip_spaces_stop str :
  Py_ISSPACE (deref str) = false -> skip_spaces str = str.
Proof.
  destruct str as [|c str]; simpl; [reflexivity|].
  intros ->. now rewrite andb_false_r.
Qed.

Lemma skip_spaces_split str :
  exists ws, str = ws ++ skip_spaces str /\ forallb Py_ISSPACE ws = true.
Proof.
  induction str as [|c str (ws & IH & Hws)]; [now exists []|].
  simpl. destruct (negb (c =? 0) && Py_ISSPACE c) eqn:E.
  - exists (c :: ws). simpl. apply andb_true_iff in E as [_ ->].
    now rewrite <- IH.
  - now exists [].
Qed.

Lemma scan_numeric_stop rest prev :
  stops rest -> prev <> 95 -> scan_numeric rest prev = Some ([], rest).
Proof.
  unfold stops. intros Hstop Hprev. apply N.eqb_neq in Hprev.
  destruct rest as [|c rest]; simpl in *; ords; rewrite ?Hstop, Hprev;
    reflexivity.
Qed.

Lemma scan_numeric_numeral b rest prev :
  numeral b -> Forall (fun c => c < 127) b -> stops rest ->
  scan_numeric (b ++ rest) prev = Some (b, rest).
Proof.
  intros Hb. revert prev.
  assert (step : forall ch, Py_UNICODE_ISDECIMAL ch = true -> ch < 127 ->
            (_PyLong_DigitValue ch <? base) = true /\ (ch =? 95) = false).
  { intros ch Hd Hlow. destruct (isdecimal_low ch Hlow Hd).
    split; [apply N.ltb_lt, DigitValue_lt|apply N.eqb_neq]; lia. }
  induction Hb as [ch Hd|ch ds Hd Hds IH|ch ds Hd Hds IH];
    intros prev Hlow Hstop; inversion Hlow as [|? ? Hch Hlow']; subst;
    destruct (step ch Hd Hch) as [E1 E2]; cbn [app scan_numeric]; ords;
    rewrite E1, E2; cbn [orb andb].
  - rewrite scan_numeric_stop; auto. apply N.eqb_neq in E2. exact E2.
  - now rewrite IH.
  - inversion Hlow' as [|? ? _ Hlow'']; subst.
    cbn [app scan_numeric]. ords.
    change (_PyLong_DigitValue 95 <? base) with false.
    change (95 =? 95) with true. rewrite ?E2. cbn [orb andb].
    now rewrite IH.
Qed.

Lemma scan_numeric_inv str : forall prev span stop,
  scan_numeric str prev = Some (span, stop) ->
  str = span ++ stop /\ stops stop /\ scanned span prev
  /\ Forall (fun c => c < 127) span.
Proof.
  unfold scanned.
  induction str as [|c str IH]; intros prev span stop; simpl; ords.
  - destruct (prev =? 95); [discriminate|]. intros [= <- <-].
    repeat split; auto.
  - destruct ((_PyLong_DigitValue c <? base) || (c =? 95)) eqn:E.
    + destruct ((c =? 95) && (prev =? 95)) eqn:E2; [discriminate|].
      destruct (scan_numeric str c) as [[span' stop']|] eqn:Hrec;
        [|discriminate].
      intros [= <- <-]. apply IH in Hrec as (-> & Hstop & Hsh & Hlow).
      destruct (c =? 95) eqn:Ec.
      * apply N.eqb_eq in Ec. subst c. simpl in E2, Hsh.
        rewrite E2. repeat split; auto; [|constructor; [lia|auto]].
        right. right. eauto.
      * rewrite orb_false_r in E. apply N.ltb_lt, DigitValue_lt in E.
        assert (Hd : Py_UNICODE_ISDECIMAL c = true)
          by (apply ascii_isdecimal; lia).
        assert (Hnum : numeral (c :: span')).
        { destruct Hsh as [->|[Hn|(b & -> & Hn)]].
          - now constructor.
          - now constructor.
          - now apply numeral_underscore. }
        repeat split; auto;
          [destruct (prev =? 95); auto|constructor; [lia|auto]].
    + destruct (prev =? 95); [discriminate|]. intros [= <- <-].
      repeat split; auto.
Qed.

(** *** The conversion loop *)

Lemma convert_filter b : forall z,
  convert b z = convert (filter not_underscore b) z.
Proof.
  induction b as [|c b IH]; intros z; [reflexivity|].
  cbn [convert filter]. unfold not_underscore at 1.
  destruct (c =? ord "_") eqn:E; cbn [negb]; [apply IH|].
  cbn [convert]. rewrite E. apply IH.
Qed.

Lemma convert_digits ds : forall z,
  Forall (fun c => 48 <= c /\ c <= 57) ds ->
  convert ds z = (z * 10 ^ Z.of_nat (length ds) + digits_value ds)%Z.
Proof.
  induction ds as [|c ds IH]; intros z Hds.
  - simpl. lia.
  - inversion Hds as [|? ? [Hlo Hhi] Hds']; subst.
    cbn [convert digits_value length]. ords.
    replace (c =? 95) with false by (symmetry; apply N.eqb_neq; lia).
    rewrite IH by assumption.
    rewrite DigitValue_digit, digit_value_ascii by assumption.
    rewrite Nat2Z.inj_succ, Z.pow_succ_r by lia.
    change (Z.of_N base) with 10%Z. ring.
Qed.

Lemma numeral_chars ds :
  numeral ds ->
  Forall (fun ch => Py_UNICODE_ISDECIMAL ch = true) (filter not_underscore ds)
  /\ filter not_underscore ds <> [].
Proof.
  assert (keep : forall ch, Py_UNICODE_ISDECIMAL ch = true ->
            not_underscore ch = true).
  { intros ch Hd. unfold not_underscore. ords.
    destruct (ch =? 95) eqn:E; [|reflexivity].
    apply N.eqb_eq in E. subst. discriminate Hd. }
  induction 1 as [ch Hd|ch ds Hd Hds [IH1 IH2]|ch ds Hd Hds [IH1 IH2]];
    cbn [filter]; rewrite (keep ch Hd).
  - split; [auto|discriminate].
  - split; [auto|discriminate].
  - change (not_underscore (ord "_")) with false. cbn iota.
    split; [auto|discriminate].
Qed.

Lemma convert_numeral b :
  numeral b -> Forall (fun c => c < 127) b ->
  convert b 0 = numeral_value b.
Proof.
  intros Hb Hlow. rewrite convert_filter. unfold numeral_value.
  rewrite convert_digits; [lia|].
  destruct (numeral_chars b Hb) as [Hd _].
  apply Forall_forall. intros c Hin.
  rewrite Forall_forall in Hd, Hlow.
  apply isdecimal_low; [apply Hlow|apply Hd; exact Hin].
  apply filter_In in Hin. tauto.
Qed.

(** *** [PyLong_FromString] accepts exactly the literals *)

Lemma numeral_head b :
  numeral b -> exists c r, b = c :: r /\ Py_UNICODE_ISDECIMAL c = true.
Proof. destruct 1; eauto. Qed.

Lemma spaces_stop ws :
  forallb Py_ISSPACE ws = true -> stops ws /\ skip_spaces ws = [].
Proof.
  intros Hws. split.
  - destruct ws as [|c ws]; [reflexivity|].
    simpl in Hws. apply andb_true_iff in Hws as [Hc _].
    apply ISSPACE_spec in Hc. unfold stops. cbn [deref hd]. ords.
    apply orb_false_iff. split.
    + destruct (DigitValue_lt c) as [H _].
      destruct (_PyLong_DigitValue c <? base) eqn:E; [|reflexivity].
      apply N.ltb_lt in E. apply H in E. lia.
    + apply N.eqb_neq. lia.
  - rewrite <- (app_nil_r ws) at 1. now rewrite skip_spaces_app.
Qed.

Lemma FromString_literal ws1 sg sgn b ws2 :
  forallb Py_ISSPACE ws1 = true -> forallb Py_ISSPACE ws2 = true ->
  sign sg sgn -> numeral b -> Forall (fun c => c < 127) b ->
  PyLong_FromString (ws1 ++ sg ++ b ++ ws2)
  = Some ((sgn * numeral_value b)%Z, []).
Proof.
  intros Hws1 Hws2 Hsg Hb Hlow.
  destruct (spaces_stop ws2 Hws2) as [Hstop Hend].
  pose proof (scan_numeric_numeral b ws2 0 Hb Hlow Hstop) as Hscan.
  pose proof (convert_numeral b Hb Hlow) as Hconv.
  destruct (numeral_head b Hb) as (c & r & -> & Hc).
  inversion Hlow as [|? ? Hclow _]; subst.
  destruct (isdecimal_low c Hclow Hc) as [Hlo Hhi].
  assert (Hsp : Py_ISSPACE c = false).
  { destruct (Py_ISSPACE c) eqn:E; [|reflexivity].
    apply ISSPACE_spec in E. lia. }
  assert (E43 : (c =? 43) = false) by (apply N.eqb_neq; lia).
  assert (E45 : (c =? 45) = false) by (apply N.eqb_neq; lia).
  assert (E95 : (c =? 95) = false) by (apply N.eqb_neq; lia).
  unfold PyLong_FromString. rewrite skip_spaces_app by assumption.
  destruct Hsg; cbn [app] in *.
  - rewrite skip_spaces_stop by exact Hsp.
    cbn [deref hd tl]. ords. rewrite E43, E45. cbn iota.
    cbn [deref hd tl]. rewrite E95, Hscan, Hend, Hconv. reflexivity.
  - rewrite skip_spaces_stop by reflexivity.
    cbn [deref hd tl]. ords. change (43 =? 43) with true. cbn iota.
    cbn [deref hd tl]. rewrite E95, Hscan, Hend, Hconv. reflexivity.
  - rewrite skip_spaces_stop by reflexivity.
    cbn [deref hd tl]. ords. change (45 =? 43) with false.
    change (45 =? 45) with true. cbn iota.
    cbn [deref hd tl]. rewrite E95, Hscan, Hend, Hconv. reflexivity.
Qed.

Lemma after_sign_inv sgn str z :
  (if deref str =? ord "_" then None
   else
     match scan_numeric str 0 with
     | None => None
     | Some (span, scan) =>
         match span with
         | [] => None
         | _ :: _ =>
             let z := (sgn * convert span 0)%Z in
             let str := skip_spaces scan in
             if negb (deref str =? 0) then None else Some (z, str)
         end
     end) = Some (z, []) ->
  exists b ws2,
    str = b ++ ws2 /\ forallb Py_ISSPACE ws2 = true /\ numeral b
    /\ Forall (fun c => c < 127) b /\ z = (sgn * numeral_value b)%Z.
Proof.
  ords. destruct (deref str =? 95) eqn:E95; [discriminate|].
  destruct (scan_numeric str 0) as [[span scan]|] eqn:Hscan;
    [|discriminate].
  apply scan_numeric_inv in Hscan as (-> & Hstop & Hsh & Hlow).
  destruct span as [|c span]; [discriminate|]. cbn zeta.
  remember (convert (c :: span) 0) as v eqn:Hv.
  destruct (negb (deref (skip_spaces scan) =? 0)); [discriminate|].
  intros [= <- Hend].
  assert (Hnum : numeral (c :: span)).
  { unfold scanned in Hsh. simpl in Hsh.
    destruct Hsh as [[=]|[Hn|(b & [= -> ->] & _)]]; [exact Hn|].
    discriminate E95. }
  destruct (skip_spaces_split scan) as (ws2 & Hws2 & Hsp).
  rewrite Hend, app_nil_r in Hws2. subst scan.
  exists (c :: span), ws2. repeat split; auto.
  now rewrite Hv, convert_numeral.
Qed.

Lemma FromString_inv buf z :
  PyLong_FromString buf = Some (z, []) ->
  exists ws1 sg sgn b ws2,
    buf = ws1 ++ sg ++ b ++ ws2
    /\ forallb Py_ISSPACE ws1 = true /\ forallb Py_ISSPACE ws2 = true
    /\ sign sg sgn /\ numeral b /\ Forall (fun c => c < 127) b
    /\ z = (sgn * numeral_value b)%Z.
Proof.
  unfold PyLong_FromString.
  destruct (skip_spaces_split buf) as (ws1 & Hbuf & Hws1).
  destruct (skip_spaces buf) as [|c str] eqn:Hskip.
  - discriminate.
  - cbn [deref hd tl]. ords. destruct (c =? 43) eqn:E43.
    + apply N.eqb_eq in E43. subst c. intros H.
      apply after_sign_inv in H as (b & ws2 & -> & Hws2 & Hb & Hlow & ->).
      exists ws1, [43], 1%Z, b, ws2. rewrite Hbuf.
      repeat split; auto. apply sign_plus.
    + destruct (c =? 45) eqn:E45.
      * apply N.eqb_eq in E45. subst c. intros H.
        apply after_sign_inv in H
          as (b & ws2 & -> & Hws2 & Hb & Hlow & ->).
        exists ws1, [45], (-1)%Z, b, ws2. rewrite Hbuf.
        repeat split; auto. apply sign_minus.
      * intros H.
        apply after_sign_inv in H
          as (b & ws2 & Hstr & Hws2 & Hb & Hlow & ->).
        exists ws1, [], 1%Z, b, ws2. rewrite Hbuf, Hstr.
        repeat split; auto. apply sign_none.
Qed.

(** *** The transformation to ASCII *)

Lemma Transform_cons ch r :
  _PyUnicode_TransformDecimalAndSpaceToASCII (ch :: r)
  = match asciify ch with
    | Some c => c :: _PyUnicode_TransformDecimalAndSpaceToASCII r
    | None => [63]
    end.
Proof.
  cbn [_PyUnicode_TransformDecimalAndSpaceToASCII]. unfold asciify.
  destruct (ch <? 127); [reflexivity|].
  destruct (Py_UNICODE_ISSPACE ch); [reflexivity|].
  destruct (Py_UNICODE_TODECIMAL ch); reflexivity.
Qed.

Lemma Transform_asciified s b :
  asciified s b -> _PyUnicode_TransformDecimalAndSpaceToASCII s = b.
Proof.
  induction 1 as [|ch c s b Hc _ IH]; [reflexivity|].
  now rewrite Transform_cons, Hc, IH.
Qed.

Lemma Transform_inv s :
  ~ In 63 (_PyUnicode_TransformDecimalAndSpaceToASCII s) ->
  asciified s (_PyUnicode_TransformDecimalAndSpaceToASCII s).
Proof.
  induction s as [|ch s IH]; [constructor|].
  rewrite Transform_cons. destruct (asciify ch) as [c|] eqn:E.
  - intros Hno. constructor; [exact E|].
    apply IH. intros Hin. apply Hno. now right.
  - intros Hno. exfalso. apply Hno. now left.
Qed.

(** A character and its image are of the same kind. *)
Lemma asciify_same ch c :
  asciify ch = Some c ->
  c < 127
  /\ Py_ISSPACE c = int_space ch
  /\ Py_UNICODE_ISDECIMAL c = Py_UNICODE_ISDECIMAL ch
  /\ digit_value c = digit_value ch
  /\ (forall k, k = 43 \/ k = 45 \/ k = 95 -> c = k <-> ch = k).
Proof.
  unfold asciify, int_space. destruct (ch <? 127) eqn:Hlow.
  - intros [= ->]. apply N.ltb_lt in Hlow. repeat split; auto.
  - apply N.ltb_ge in Hlow.
    destruct (Py_UNICODE_ISSPACE ch) eqn:Hsp.
    + intros [= <-]. ords. pose proof (space_not_decimal ch Hsp) as Hnd.
      unfold Py_UNICODE_ISDECIMAL, digit_value, Py_UNICODE_TODECIMAL.
      rewrite Hnd. repeat split; try reflexivity; try lia.
    + destruct (Py_UNICODE_TODECIMAL ch) as [d|] eqn:Hd; [|discriminate].
      change (Some (48 + d) = Some c -> c < 127
        /\ Py_ISSPACE c = false
        /\ Py_UNICODE_ISDECIMAL c = Py_UNICODE_ISDECIMAL ch
        /\ digit_value c = digit_value ch
        /\ (forall k, k = 43 \/ k = 45 \/ k = 95 -> c = k <-> ch = k)).
      intros Hc. assert (c = 48 + d) by congruence. subst c. clear Hc.
      pose proof (todecimal_lt ch d Hd) as Hlt.
      assert (Hd' : _PyUnicode_ToDecimalDigit (48 + d) = Some d).
      { rewrite ascii_digit_todecimal by lia. f_equal. lia. }
      unfold Py_UNICODE_ISDECIMAL, digit_value, Py_UNICODE_TODECIMAL in *.
      rewrite Hd, Hd'. repeat split; try reflexivity; try lia.
      destruct (Py_ISSPACE (48 + d)) eqn:E; [|reflexivity].
      apply ISSPACE_spec in E. lia.
Qed.

Lemma asciified_spaces ws b :
  asciified ws b -> forallb Py_ISSPACE b = forallb int_space ws.
Proof.
  induction 1 as [|ch c ws b Hc _ IH]; [reflexivity|].
  cbn [forallb]. apply asciify_same in Hc as (_ & -> & _). now rewrite IH.
Qed.

Lemma asciified_sign sg b sgn :
  asciified sg b -> sign sg sgn <-> sign b sgn.
Proof.
  intros H. split; intros Hs.
  - destruct Hs; inversion H as [|ch c ? ? Hc Ht]; subst;
      try (inversion Ht; subst).
    + apply sign_none.
    + vm_compute in Hc. injection Hc as <-. apply sign_plus.
    + vm_compute in Hc. injection Hc as <-. apply sign_minus.
  - destruct Hs; inversion H as [|ch c ? ? Hc Ht]; subst;
      try (inversion Ht; subst).
    + apply sign_none.
    + apply asciify_same in Hc as (_ & _ & _ & _ & Hk).
      assert (ch = 43) as -> by (apply Hk; [tauto|reflexivity]).
      apply sign_plus.
    + apply asciify_same in Hc as (_ & _ & _ & _ & Hk).
      assert (ch = 45) as -> by (apply Hk; [tauto|reflexivity]).
      apply sign_minus.
Qed.

(** A numeral stays one under a relation that keeps digits and
    underscores. *)
Lemma numeral_Forall2 (P : N -> N -> Prop) ds b :
  (forall x y, P x y -> Py_UNICODE_ISDECIMAL x = true ->
               Py_UNICODE_ISDECIMAL y = true) ->
  (forall x y, P x y -> x = 95 -> y = 95) ->
  Forall2 P ds b -> numeral ds -> numeral b.
Proof.
  intros Hdec Hus HF Hn. revert b HF.
  induction Hn as [ch Hd|ch ds Hd Hds IH|ch ds Hd Hds IH]; intros b HF.
  - inversion HF as [|? c ? ? Hc Ht]; subst. inversion Ht; subst.
    constructor. eauto.
  - inversion HF as [|? c ? ? Hc Ht]; subst. apply numeral_cons; eauto.
  - inversion HF as [|? c ? ? Hc Ht]; subst.
    inversion Ht as [|? c' ? ? Hc' Ht']; subst.
    rewrite (Hus _ _ Hc' eq_refl). apply numeral_underscore; eauto.
Qed.

Lemma asciified_numeral ds b :
  asciified ds b -> numeral ds <-> numeral b.
Proof.
  intros H. split.
  - apply numeral_Forall2 with (P := fun ch c => asciify ch = Some c);
      [| |exact H]; intros x y Hxy.
    + apply asciify_same in Hxy as (_ & _ & -> & _). auto.
    + apply asciify_same in Hxy as (_ & _ & _ & _ & Hk). intros ->.
      apply Hk; tauto.
  - apply numeral_Forall2 with (P := fun c ch => asciify ch = Some c);
      [| |apply Forall2_flip; exact H]; intros x y Hxy.
    + apply asciify_same in Hxy as (_ & _ & <- & _). auto.
    + apply asciify_same in Hxy as (_ & _ & _ & _ & Hk). intros ->.
      apply Hk; tauto.
Qed.

Lemma asciified_digits_value ds b :
  asciified ds b -> digits_value b = digits_value ds.
Proof.
  induction 1 as [|ch c ds b Hc Hds IH]; [reflexivity|].
  cbn [digits_value]. apply asciify_same in Hc as (_ & _ & _ & -> & _).
  now rewrite IH, (Forall2_length Hds).
Qed.

Lemma asciified_filter ds b :
  asciified ds b ->
  asciified (filter not_underscore ds) (filter not_underscore b).
Proof.
  induction 1 as [|ch c ds b Hc Hds IH]; [constructor|].
  cbn [filter]. pose proof Hc as Hc'.
  apply asciify_same in Hc' as (_ & _ & _ & _ & Hk).
  assert (E : not_underscore c = not_underscore ch).
  { unfold not_underscore. ords. f_equal.
    destruct (ch =? 95) eqn:E.
    - apply N.eqb_eq in E. apply N.eqb_eq. apply Hk; [tauto|exact E].
    - apply N.eqb_neq in E. apply N.eqb_neq. intros Hc95. apply E.
      apply Hk; [tauto|exact Hc95]. }
  rewrite E. destruct (not_underscore ch); [constructor|]; assumption.
Qed.

Lemma asciified_numeral_value ds b :
  asciified ds b -> numeral_value b = numeral_value ds.
Proof.
  intros H. apply asciified_digits_value, asciified_filter, H.
Qed.

Lemma asciified_low s b : asciified s b -> Forall (fun c => c < 127) b.
Proof.
  induction 1 as [|ch c s b Hc _ IH]; constructor; [|exact IH].
  now apply asciify_same in Hc.
Qed.

Lemma asciify_some ch :
  int_space ch = true \/ Py_UNICODE_ISDECIMAL ch = true \/ ch < 127 ->
  exists c, asciify ch = Some c.
Proof.
  unfold asciify, int_space. destruct (ch <? 127) eqn:Hlow; [eauto|].
  destruct (Py_UNICODE_ISSPACE ch); [eauto|].
  intros [H|[H|H]]; [discriminate| |apply N.ltb_ge in Hlow; lia].
  apply isdecimal_spec in H as [d H]. unfold Py_UNICODE_TODECIMAL.
  rewrite H. cbn [option_map]. eauto.
Qed.

Lemma asciified_exists s :
  Forall (fun ch => exists c, asciify ch = Some c) s ->
  exists b, asciified s b.
Proof.
  induction 1 as [|ch s [c Hc] _ [b IH]]; [exists []; constructor|].
  exists (c :: b). now constructor.
Qed.

Lemma numeral_all ds :
  numeral ds ->
  Forall (fun ch => Py_UNICODE_ISDECIMAL ch = true \/ ch = 95) ds.
Proof.
  induction 1 as [ch Hd|ch ds Hd _ IH|ch ds Hd _ IH];
    repeat (constructor; [auto|]); auto.
Qed.

Lemma literal_asciified ws1 sg sgn ds ws2 :
  forallb int_space ws1 = true -> forallb int_space ws2 = true ->
  sign sg sgn -> numeral ds ->
  exists b1 bd b2,
    asciified ws1 b1 /\ asciified sg sg /\ asciified ds bd
    /\ asciified ws2 b2.
Proof.
  intros H1 H2 Hsg Hds.
  assert (sp : forall ws, forallb int_space ws = true ->
               exists b, asciified ws b).
  { intros ws Hws. apply asciified_exists, Forall_forall. intros ch Hin.
    apply asciify_some. left. rewrite forallb_forall in Hws. auto. }
  destruct (sp ws1 H1) as [b1 Hb1]. destruct (sp ws2 H2) as [b2 Hb2].
  destruct (asciified_exists ds) as [bd Hbd].
  { eapply Forall_impl; [|apply numeral_all, Hds].
    intros ch [Hd| ->]; apply asciify_some; [tauto|right; right; lia]. }
  exists b1, bd, b2. repeat split; auto.
  destruct Hsg; repeat constructor.
Qed.

Lemma literal_no_question ws1 sg sgn b ws2 :
  forallb Py_ISSPACE ws1 = true -> forallb Py_ISSPACE ws2 = true ->
  sign sg sgn -> numeral b -> ~ In 63 (ws1 ++ sg ++ b ++ ws2).
Proof.
  intros H1 H2 Hsg Hb Hin.
  assert (sp : forall ws, forallb Py_ISSPACE ws = true -> ~ In 63 ws).
  { intros ws Hws Hq. rewrite forallb_forall in Hws.
    apply Hws in Hq. discriminate Hq. }
  rewrite !in_app_iff in Hin. destruct Hin as [Hin|[Hin|[Hin|Hin]]].
  - now apply (sp ws1).
  - destruct Hsg; simpl in Hin; ords; intuition discriminate.
  - apply numeral_all in Hb. rewrite Forall_forall in Hb.
    destruct (Hb _ Hin) as [Hd|Hd]; discriminate Hd.
  - now apply (sp ws2).
Qed.

End LongFacts.

(** [int] on a string returns [z] exactly when the string is an integer
    literal that denotes [z]. *)
Theorem int_literal_spec (s : str) (z : Z) :
  builtins.int (VStr s) = Return z <-> int_literal s z.
Proof.
  unfold builtins.int, Long.PyLong_FromUnicodeObject. split.
  - destruct (Long.PyLong_FromString _) as [[r [|c e]]|] eqn:E;
      try discriminate.
    intros [= ->].
    apply FromString_inv in E
      as (b1 & bs & sgn & bd & b2 & Hbuf & H1 & H2 & Hsg & Hbd & _ & ->).
    pose proof (literal_no_question _ _ _ _ _ H1 H2 Hsg Hbd) as Hno.
    rewrite <- Hbuf in Hno. apply Transform_inv in Hno. rewrite Hbuf in Hno.
    apply Forall2_app_inv_r in Hno as (ws1 & s1 & Hws1 & Hno & ->).
    apply Forall2_app_inv_r in Hno as (sg & s2 & Hs & Hno & ->).
    apply Forall2_app_inv_r in Hno as (ds & ws2 & Hds & Hws2 & ->).
    exists ws1, sg, sgn, ds, ws2. repeat split.
    + now rewrite <- (asciified_spaces _ _ Hws1).
    + now rewrite <- (asciified_spaces _ _ Hws2).
    + now apply (asciified_sign _ _ _ Hs).
    + now apply (asciified_numeral _ _ Hds).
    + now rewrite (asciified_numeral_value _ _ Hds).
  - intros (ws1 & sg & sgn & ds & ws2 & -> & H1 & H2 & Hsg & Hds & ->).
    destruct (literal_asciified _ _ _ _ _ H1 H2 Hsg Hds)
      as (b1 & bd & b2 & Hb1 & Hbs & Hbd & Hb2).
    rewrite (Transform_asciified _ (b1 ++ sg ++ bd ++ b2))
      by (repeat apply Forall2_app; assumption).
    rewrite (FromString_literal b1 sg sgn bd b2).
    + now rewrite (asciified_numeral_value _ _ Hbd).
    + now rewrite (asciified_spaces _ _ Hb1).
    + now rewrite (asciified_spaces _ _ Hb2).
    + exact Hsg.
    + now apply (asciified_numeral _ _ Hbd).
    + exact (asciified_low _ _ Hbd).
Qed.

(** * Facts about the matcher *)

Section SreFacts.
Import Unicode Sre.

Lemma compile_age_pattern : compile age_pattern = Some age_code.
Proof. reflexivity. Qed.

Lemma backtrack_first {A} (tail : nat -> option A) min extra r :
  tail (min + extra)%nat = Some r -> backtrack tail min extra = Some r.
Proof. intros H. destruct extra; simpl; now rewrite H. Qed.

Lemma backtrack_some {A} (tail : nat -> option A) min extra r :
  backtrack tail min extra = Some r ->
  exists k, (min <= k <= min + extra)%nat /\ tail k = Some r.
Proof.
  induction extra as [|extra IH]; simpl.
  - destruct (tail (min + 0)%nat) eqn:E; [|discriminate].
    intros [= <-]. exists (min + 0)%nat. split; [lia|exact E].
  - destruct (tail (min + S extra)%nat) eqn:E.
    + intros [= <-]. exists (min + S extra)%nat. split; [lia|exact E].
    + intros H. apply IH in H as (k & Hk & H). exists k. split; [lia|auto].
Qed.

Lemma count_firstn x rest : forall k,
  (k <= count x rest)%nat ->
  Forall (fun ch => single_match x ch = true) (firstn k rest)
  /\ length (firstn k rest) = k.
Proof.
  induction rest as [|ch rest IH]; intros k Hk; simpl in Hk.
  - assert (k = 0%nat) as -> by lia. now split.
  - destruct k as [|k]; [now split|].
    destruct (single_match x ch) eqn:E; [|lia].
    destruct (IH k) as [H1 H2]; [lia|].
    cbn [firstn length]. split; [now constructor|now rewrite H2].
Qed.

Lemma count_app x ds tail :
  Forall (fun ch => single_match x ch = true) ds ->
  single_match x (hd 0 tail) = false \/ tail = [] ->
  count x (ds ++ tail) = length ds.
Proof.
  intros Hds Htail. induction Hds as [|ch ds Hch _ IH]; simpl.
  - destruct tail as [|c tail]; [reflexivity|].
    simpl in *. destruct Htail as [->|[=]]. reflexivity.
  - now rewrite Hch, IH.
Qed.

Lemma skipn_length_app {A} (l t : list A) : skipn (length l) (l ++ t) = t.
Proof. induction l; simpl; auto. Qed.

Lemma firstn_length_app {A} (l t : list A) : firstn (length l) (l ++ t) = l.
Proof. induction l; simpl; [reflexivity|]. now f_equal. Qed.

(** The part of the pattern after the prefix matches one or more digits,
    all of them, up to the end of the string or a final line break. *)
Lemma sre_match_digits ptr rest mk r :
  sre_match [MARK 0; REPEAT_ONE 1 (IN_CATEGORY CATEGORY_DIGIT); MARK 1;
             AT AT_END] ptr rest mk = Some r
  <-> exists ds tail,
        rest = ds ++ tail /\ decimal_digits ds
        /\ (tail = [] \/ tail = [10])
        /\ r = ((ptr + length ds)%nat,
                (1%nat, (ptr + length ds)%nat) :: (0%nat, ptr) :: mk).
Proof.
  cbn [sre_match].
  set (x := IN_CATEGORY CATEGORY_DIGIT).
  set (tl := fun k : nat =>
               if at_match AT_END (ptr + k) (skipn k rest)
               then Some ((ptr + k)%nat,
                          (1%nat, (ptr + k)%nat) :: (0%nat, ptr) :: mk)
               else None).
  split.
  - destruct (count x rest <? 1)%nat eqn:En; [discriminate|].
    apply Nat.ltb_ge in En. intros H.
    apply backtrack_some in H as (k & Hk & H). unfold tl in H.
    destruct (at_match AT_END (ptr + k) (skipn k rest)) eqn:Eat;
      [|discriminate].
    injection H as <-.
    destruct (count_firstn x rest k) as [Hd Hlen]; [lia|].
    exists (firstn k rest), (skipn k rest). rewrite Hlen.
    repeat split.
    + symmetry. apply firstn_skipn.
    + intros E. rewrite E in Hlen. simpl in Hlen. lia.
    + exact Hd.
    + simpl in Eat. destruct (skipn k rest) as [|c [|c' t]];
        [now left| |discriminate].
      right. f_equal. now apply N.eqb_eq.
  - intros (ds & tail & -> & [Hne Hd] & Htail & ->).
    assert (Hcount : count x (ds ++ tail) = length ds).
    { apply count_app; [exact Hd|].
      destruct Htail as [->| ->]; [now right|now left]. }
    rewrite Hcount.
    assert (Hpos : (1 <= length ds)%nat)
      by (destruct ds; [contradiction|simpl; lia]).
    destruct (length ds <? 1)%nat eqn:En;
      [apply Nat.ltb_lt in En; lia|].
    apply backtrack_first.
    replace (1 + (length ds - 1))%nat with (length ds) by lia.
    rewrite skipn_length_app.
    destruct Htail as [->| ->]; reflexivity.
Qed.

Lemma sre_match_prefix s r :
  sre_match age_code 0 s [] = Some r
  <-> exists rest,
        s = u "age-" ++ rest
        /\ sre_match [MARK 0; REPEAT_ONE 1 (IN_CATEGORY CATEGORY_DIGIT);
                      MARK 1; AT AT_END] 4 rest [] = Some r.
Proof.
  unfold age_code. ords.
  set (code := MARK 0 :: _).
  change (u "age-") with [97; 103; 101; 45].
  split.
  - destruct s as [|c0 [|c1 [|c2 [|c3 rest]]]];
      cbn [sre_match at_match Nat.eqb single_match];
      try discriminate;
      repeat match goal with
        | |- context [?c =? ?k] =>
            destruct (c =? k) eqn:?; [|discriminate]
        end; try discriminate.
    bools. subst. intros H. exists rest. split; [reflexivity|exact H].
  - intros (rest & -> & H). exact H.
Qed.

(** [re.match] with the notebook's pattern: the language it accepts and
    the match object it gives. *)
Lemma match_age_spec s m :
  re.match_ age_pattern (VStr s) = Return (Some m)
  <-> exists ds tail,
        s = u "age-" ++ ds ++ tail /\ decimal_digits ds
        /\ (tail = [] \/ tail = [10]) /\ m = age_match s (length ds).
Proof.
  unfold re.match_. rewrite compile_age_pattern. split.
  - destruct (sre_match age_code 0 s []) as [r|] eqn:E; [|discriminate].
    cbn [option_map]. intros [= <-].
    apply sre_match_prefix in E as (rest & -> & E).
    apply sre_match_digits in E as (ds & tail & -> & Hd & Ht & ->).
    exists ds, tail. repeat split; auto; apply Hd.
  - intros (ds & tail & -> & Hd & Ht & ->).
    assert (E : sre_match age_code 0 (u "age-" ++ ds ++ tail) []
                = Some ((4 + length ds)%nat,
                        [(1, 4 + length ds); (0, 4)]%nat)).
    { apply sre_match_prefix. exists (ds ++ tail).
      split; [reflexivity|]. apply sre_match_digits. exists ds, tail.
      repeat split; auto; apply Hd. }
    rewrite E. reflexivity.
Qed.

Lemma match_age_returns s :
  exists o, re.match_ age_pattern (VStr s) = Return o.
Proof. unfold re.match_. rewrite compile_age_pattern. eauto. Qed.

Lemma group_age_match ds tail :
  group (age_match (u "age-" ++ ds ++ tail) (length ds)) 1
  = Return (VStr ds).
Proof.
  unfold group, mark, age_match. cbn [lastmarks string find fst snd
    Nat.eqb Nat.mul Nat.add option_map].
  unfold slice. change (skipn 4 (u "age-" ++ ds ++ tail)) with (ds ++ tail).
  replace (_ - 4)%nat with (length ds) by lia.
  now rewrite firstn_length_app.
Qed.

End SreFacts.

(** * The notebook's functions *)

Section NormalizerFacts.
Import Unicode.

Lemma decimal_not_underscore ch :
  Py_UNICODE_ISDECIMAL ch = true -> not_underscore ch = true.
Proof.
  intros Hd. unfold not_underscore. ords.
  destruct (ch =? 95) eqn:E; [|reflexivity].
  apply N.eqb_eq in E. subst. discriminate Hd.
Qed.

Lemma digits_numeral ds :
  decimal_digits ds -> numeral ds /\ numeral_value ds = digits_value ds.
Proof.
  intros [Hne Hd]. split.
  - induction Hd as [|ch ds Hch Hds IH]; [contradiction|].
    destruct ds as [|ch' ds]; [now constructor|].
    apply numeral_cons; [exact Hch|]. apply IH. discriminate.
  - unfold numeral_value. f_equal. clear Hne.
    induction Hd as [|ch ds Hch _ IH]; [reflexivity|].
    cbn [filter]. now rewrite decimal_not_underscore, IH.
Qed.

Lemma digits_value_nonneg ds : (0 <= digits_value ds)%Z.
Proof.
  induction ds as [|ch ds IH]; cbn [digits_value]; [lia|].
  assert (0 <= digit_value ch)%Z
    by (unfold digit_value; destruct (Py_UNICODE_TODECIMAL ch); lia).
  assert (0 <= 10 ^ Z.of_nat (length ds))%Z by (apply Z.pow_nonneg; lia).
  nia.
Qed.

(** Digits, with or without a sign, are a literal. *)
Lemma signed_digits_literal sg sgn ds :
  sign sg sgn -> decimal_digits ds ->
  int_literal (sg ++ ds) (sgn * digits_value ds).
Proof.
  intros Hsg Hds. destruct (digits_numeral ds Hds) as [Hnum Hval].
  exists [], sg, sgn, ds, []. rewrite app_nil_r, Hval.
  repeat split; auto.
Qed.

Lemma int_digits ds :
  decimal_digits ds -> builtins.int (VStr ds) = Return (digits_value ds).
Proof.
  intros Hds. apply int_literal_spec.
  replace (digits_value ds) with (1 * digits_value ds)%Z by lia.
  apply (signed_digits_literal [] 1%Z ds sign_none Hds).
Qed.

(** On a string [int] returns or raises ValueError. *)
Lemma int_str_outcome s :
  (exists z, builtins.int (VStr s) = Return z)
  \/ builtins.int (VStr s) = Raise ValueError.
Proof.
  unfold builtins.int, Long.PyLong_FromUnicodeObject.
  destruct (Long.PyLong_FromString _) as [[z [|c e]]|]; eauto.
Qed.

(** Nothing that starts with [age-] is an integer literal. *)
Lemma int_age_prefix rest :
  builtins.int (VStr (u "age-" ++ rest)) = Raise ValueError.
Proof.
  unfold builtins.int, Long.PyLong_FromUnicodeObject.
  change (u "age-" ++ rest) with (97 :: 103 :: 101 :: 45 :: rest).
  rewrite Transform_cons. change (asciify 97) with (Some 97).
  cbv iota beta.
  generalize (Long._PyUnicode_TransformDecimalAndSpaceToASCII
                (103 :: 101 :: 45 :: rest)).
  intros b. reflexivity.
Qed.

(** The three ways through [getNumericVal]. *)
Lemma getNumericVal_int s z :
  builtins.int (VStr s) = Return z ->
  getNumericVal (VStr s) = Return (VInt z).
Proof. intros H. unfold getNumericVal. now rewrite H. Qed.

Lemma getNumericVal_match s ds :
  matches_age_pattern s ds ->
  builtins.int (VStr s) = Raise ValueError
  /\ getNumericVal (VStr s) = Return (VInt (digits_value ds)).
Proof.
  intros (tail & -> & Hds & Htail).
  pose proof (int_age_prefix (ds ++ tail)) as Hint.
  split; [exact Hint|].
  assert (Hm : re.match_ age_pattern (VStr (u "age-" ++ ds ++ tail))
               = Return (Some (age_match (u "age-" ++ ds ++ tail)
                                 (length ds)))).
  { apply match_age_spec. exists ds, tail. auto. }
  unfold getNumericVal. fold age_pattern. rewrite Hint.
  cbn [bind try_except exn_eqb]. rewrite Hm. cbn [bind].
  rewrite group_age_match. cbn [bind]. rewrite (int_digits ds Hds).
  reflexivity.
Qed.

Lemma getNumericVal_none s :
  builtins.int (VStr s) = Raise ValueError ->
  re.match_ age_pattern (VStr s) = Return None ->
  getNumericVal (VStr s) = Return VNone.
Proof.
  intros Hint Hm. unfold getNumericVal. fold age_pattern.
  rewrite Hint. cbn [bind try_except exn_eqb]. now rewrite Hm.
Qed.

Lemma getNumericVal_cases s :
  (exists z, builtins.int (VStr s) = Return z
             /\ getNumericVal (VStr s) = Return (VInt z))
  \/ (exists ds, matches_age_pattern s ds
                 /\ builtins.int (VStr s) = Raise ValueError
                 /\ getNumericVal (VStr s)
                    = Return (VInt (digits_value ds)))
  \/ (builtins.int (VStr s) = Raise ValueError
      /\ re.match_ age_pattern (VStr s) = Return None
      /\ getNumericVal (VStr s) = Return VNone).
Proof.
  destruct (int_str_outcome s) as [[z Hz]|Hint].
  - left. exists z. split; [exact Hz|now apply getNumericVal_int].
  - right. destruct (match_age_returns s) as [[m|] Hm].
    + left. apply match_age_spec in Hm as (ds & tail & Hs & Hds & Ht & _).
      assert (Hmatch : matches_age_pattern s ds) by (exists tail; auto).
      exists ds. split; [exact Hmatch|]. now apply getNumericVal_match.
    + right. repeat split; auto. now apply getNumericVal_none.
Qed.

Lemma str_eqb_eq a b : str_eqb a b = true <-> a = b.
Proof.
  unfold str_eqb. destruct (list_eq_dec N.eq_dec a b); split; auto.
  discriminate.
Qed.

Lemma py_eq_str a col : py_eq (VStr a) col = true <-> col = VStr a.
Proof.
  destruct col as [|z|b]; simpl; try (split; discriminate).
  rewrite str_eqb_eq. split; [now intros ->|now intros [= ->]].
Qed.

Lemma deriveGender_token col : gender_token (deriveGender col).
Proof.
  unfold gender_token, deriveGender.
  destruct (py_in col _); [auto|]. destruct (py_in col _); auto.
Qed.

End NormalizerFacts.

(** * Facts for the classes of inputs *)

Section FurtherFacts.
Import Unicode.

Lemma digit_value_bound ch : (0 <= digit_value ch <= 9)%Z.
Proof.
  unfold digit_value, Py_UNICODE_TODECIMAL.
  destruct (_PyUnicode_ToDecimalDigit ch) as [d|] eqn:E; [|lia].
  apply todecimal_lt in E. lia.
Qed.

Lemma digits_value_lt ds : (digits_value ds < 10 ^ Z.of_nat (length ds))%Z.
Proof.
  induction ds as [|ch ds IH]; [simpl; lia|].
  cbn [digits_value length]. rewrite Nat2Z.inj_succ, Z.pow_succ_r by lia.
  pose proof (digit_value_bound ch). nia.
Qed.

Lemma digits_value_app a b :
  digits_value (a ++ b)
  = (digits_value a * 10 ^ Z.of_nat (length b) + digits_value b)%Z.
Proof.
  induction a as [|ch a IH]; [simpl; lia|].
  cbn [app digits_value]. rewrite IH, length_app, Nat2Z.inj_add.
  rewrite Z.pow_add_r by lia. ring.
Qed.

Lemma digits_value_zeros zs :
  Forall zero_digit zs -> digits_value zs = 0%Z.
Proof.
  induction 1 as [|ch zs [_ Hz] _ IH]; [reflexivity|].
  cbn [digits_value]. rewrite Hz, IH. lia.
Qed.

Lemma numeral_value_lt ds :
  (0 <= numeral_value ds < 10 ^ Z.of_nat (length ds))%Z.
Proof.
  unfold numeral_value. split; [apply digits_value_nonneg|].
  eapply Z.lt_le_trans; [apply digits_value_lt|].
  apply Z.pow_le_mono_r; [lia|]. apply Nat2Z.inj_le, filter_length_le.
Qed.

(** Every character of a literal is of its alphabet. *)
Lemma literal_alphabet s z :
  int_literal s z -> forallb literal_char s = true.
Proof.
  intros (ws1 & sg & sgn & ds & ws2 & -> & H1 & H2 & Hsg & Hds & _).
  assert (sp : forall ws, forallb int_space ws = true ->
               forallb literal_char ws = true).
  { intros ws Hws. rewrite forallb_forall in *. intros c Hc.
    unfold literal_char. now rewrite (Hws c Hc). }
  rewrite !forallb_app, (sp ws1 H1), (sp ws2 H2). cbn [andb].
  rewrite andb_true_r. apply andb_true_iff. split.
  - destruct Hsg; reflexivity.
  - apply numeral_all in Hds. apply forallb_forall. intros c Hc.
    rewrite Forall_forall in Hds. unfold literal_char.
    destruct (Hds c Hc) as [-> | ->].
    + now rewrite orb_true_r.
    + apply orb_true_r.
Qed.

Lemma not_literal_raises s :
  (forall z, ~ int_literal s z) ->
  builtins.int (VStr s) = Raise ValueError.
Proof.
  intros Hno. destruct (int_str_outcome s) as [[z Hz]|H]; [|exact H].
  apply int_literal_spec in Hz. now apply Hno in Hz.
Qed.

Lemma no_match_None s :
  (forall ds, ~ matches_age_pattern s ds) ->
  re.match_ age_pattern (VStr s) = Return None.
Proof.
  intros Hno. destruct (match_age_returns s) as [[m|] Hm]; [|exact Hm].
  apply match_age_spec in Hm as (ds & tail & Hs & Hds & Ht & _).
  exfalso. apply (Hno ds). exists tail. auto.
Qed.

(** A run of characters with a property, followed by something that does
    not start with such a character, is split in one way only. *)
Lemma run_unique (P : N -> bool) l1 : forall l2 t1 t2,
  l1 ++ t1 = l2 ++ t2 ->
  forallb P l1 = true -> forallb P l2 = true ->
  t1 <> [] -> P (hd 0 t1) = false ->
  t2 = [] \/ P (hd 0 t2) = false ->
  l1 = l2 /\ t1 = t2.
Proof.
  induction l1 as [|a l1 IH]; intros l2 t1 t2 E H1 H2 Hne Ht1 Ht2.
  - destruct l2 as [|b l2]; [auto|]. simpl in E. subst t1.
    simpl in *. apply andb_true_iff in H2 as [Hb _]. congruence.
  - simpl in H1. apply andb_true_iff in H1 as [Ha H1].
    destruct l2 as [|b l2].
    + simpl in E. subst t2. simpl in Ht2.
      destruct Ht2 as [[=]|Ht2]. congruence.
    + simpl in E. injection E as <- E. simpl in H2.
      apply andb_true_iff in H2 as [_ H2].
      destruct (IH l2 t1 t2 E H1 H2 Hne Ht1 Ht2) as [-> ->]. auto.
Qed.

Lemma decimal_forallb ds :
  Forall (fun ch => Py_UNICODE_ISDECIMAL ch = true) ds ->
  forallb Py_UNICODE_ISDECIMAL ds = true.
Proof. intros H. apply forallb_forall. now rewrite Forall_forall in H. Qed.

(** After the digits of an age token only one final line break may
    follow. *)
Lemma age_tail_None ds tail :
  Forall (fun ch => Py_UNICODE_ISDECIMAL ch = true) ds ->
  tail <> [] -> tail <> [10] ->
  Py_UNICODE_ISDECIMAL (hd 0 tail) = false ->
  getNumericVal (VStr (u "age-" ++ ds ++ tail)) = Return VNone.
Proof.
  intros Hds Hne Hnl Hhd.
  apply getNumericVal_none; [apply int_age_prefix|].
  apply no_match_None. intros ds' (tail' & E & [_ Hds'] & Ht').
  apply app_inv_head in E.
  destruct (run_unique Py_UNICODE_ISDECIMAL ds ds' tail tail' E)
    as [_ <-]; auto using decimal_forallb.
  - destruct Ht' as [-> | ->]; [now left|now right].
  - destruct Ht' as [Ht'|Ht']; contradiction.
Qed.

Lemma numeral_app_underscore ds1 ds2 :
  decimal_digits ds1 -> numeral ds2 -> numeral (ds1 ++ 95 :: ds2).
Proof.
  intros [Hne Hd] H2. induction Hd as [|ch ds Hch Hds IH]; [contradiction|].
  destruct ds as [|ch' ds].
  - now apply numeral_underscore.
  - apply numeral_cons; [exact Hch|]. apply IH. discriminate.
Qed.

Lemma filter_decimal ds :
  Forall (fun ch => Py_UNICODE_ISDECIMAL ch = true) ds ->
  filter not_underscore ds = ds.
Proof.
  induction 1 as [|ch ds Hch _ IH]; [reflexivity|].
  cbn [filter]. now rewrite decimal_not_underscore, IH.
Qed.

Lemma group_whole_match ds tail :
  Sre.group (age_match (u "age-" ++ ds ++ tail) (length ds)) 0
  = Return (VStr (u "age-" ++ ds)).
Proof.
  unfold Sre.group, age_match, Sre.slice. cbn [Sre.string Sre.endpos skipn].
  rewrite Nat.sub_0_r. f_equal. f_equal.
  change (u "age-" ++ ds ++ tail) with (97 :: 103 :: 101 :: 45 :: ds ++ tail).
  cbn [Nat.add firstn]. now rewrite firstn_length_app.
Qed.

(** [int] skips the white space of [str.isspace] except the separators. *)
Lemma int_space_plain ch : int_space ch = plain_space ch.
Proof.
  unfold int_space, plain_space, is_space, separator, Py_UNICODE_ISSPACE,
    Long.Py_ISSPACE, _Py_ascii_whitespace.
  destruct (ch <? 127) eqn:E1; destruct (ch <? 128) eqn:E2;
    destruct (28 <=? ch) eqn:E3; destruct (ch <=? 31) eqn:E4;
    destruct (9 <=? ch) eqn:E5; destruct (ch <=? 13) eqn:E6;
    destruct (ch =? 32) eqn:E7; cbn [andb orb negb];
    rewrite ?andb_true_r; try reflexivity; exfalso; bools; lia.
Qed.

Lemma forallb_int_space_plain ws :
  forallb int_space ws = forallb plain_space ws.
Proof.
  induction ws as [|ch ws IH]; [reflexivity|].
  cbn [forallb]. now rewrite int_space_plain, IH.
Qed.

Lemma separator_not_literal_char ch :
  separator ch = true -> literal_char ch = false.
Proof.
  unfold separator. intros H. bools.
  assert (ch = 28 \/ ch = 29 \/ ch = 30 \/ ch = 31) as [-> |[-> |[-> | ->]]]
    by lia; reflexivity.
Qed.

Lemma separator_not_decimal ch :
  separator ch = true -> Py_UNICODE_ISDECIMAL ch = false.
Proof.
  unfold separator. intros H. bools.
  assert (ch = 28 \/ ch = 29 \/ ch = 30 \/ ch = 31) as [-> |[-> |[-> | ->]]]
    by lia; reflexivity.
Qed.

(** A string with a separator in it is neither a literal nor matched. *)
Lemma separator_None s :
  existsb separator s = true -> getNumericVal (VStr s) = Return VNone.
Proof.
  intros H. apply existsb_exists in H as (c & Hin & Hc).
  apply getNumericVal_none.
  - apply not_literal_raises. intros z Hz. apply literal_alphabet in Hz.
    rewrite forallb_forall in Hz. apply Hz in Hin.
    rewrite (separator_not_literal_char c Hc) in Hin. discriminate.
  - apply no_match_None. intros ds (tail & -> & [_ Hds] & Ht).
    change (u "age-") with [97; 103; 101; 45] in Hin.
    rewrite !in_app_iff in Hin. destruct Hin as [Hin|[Hin|Hin]].
    + simpl in Hin. intuition (subst; discriminate Hc).
    + rewrite Forall_forall in Hds. apply Hds in Hin.
      rewrite (separator_not_decimal c Hc) in Hin. discriminate.
    + destruct Ht as [-> | ->]; simpl in Hin; [contradiction|].
      destruct Hin as [<-|[]]. discriminate Hc.
Qed.

Lemma last_Forall (P : N -> Prop) l x :
  Forall P l -> l <> [] -> P (last l x).
Proof.
  induction 1 as [|a l Ha Hl IH]; [contradiction|]. intros _.
  destruct l as [|b l]; [exact Ha|]. apply IH. discriminate.
Qed.

(** An age token neither starts nor ends with white space. *)
Lemma age_token_trimmed ds :
  decimal_digits ds -> extra_whitespace (u "age-" ++ ds) = false.
Proof.
  intros [Hne Hds]. destruct ds as [|d ds]; [contradiction|].
  change (u "age-" ++ d :: ds) with (97 :: 103 :: 101 :: 45 :: d :: ds).
  unfold extra_whitespace. change (is_space 97) with false. cbn [orb last].
  change (is_space (last (d :: ds) 97) = false).
  assert (Hd : Py_UNICODE_ISDECIMAL (last (d :: ds) 97) = true)
    by (apply (last_Forall _ _ _ Hds); discriminate).
  unfold is_space. destruct (Py_UNICODE_ISSPACE _) eqn:E; [|reflexivity].
  apply space_not_decimal in E. apply isdecimal_spec in Hd as [k Hk].
  congruence.
Qed.

Lemma raises_not_literal s :
  builtins.int (VStr s) = Raise ValueError -> forall z, ~ int_literal s z.
Proof. intros H z Hz. apply int_literal_spec in Hz. congruence. Qed.

Lemma None_not_matched s :
  re.match_ age_pattern (VStr s) = Return None ->
  forall ds, ~ matches_age_pattern s ds.
Proof.
  intros H ds (tail & Hs & Hds & Ht).
  assert (E : re.match_ age_pattern (VStr s)
              = Return (Some (age_match s (length ds))))
    by (apply match_age_spec; exists ds, tail; auto).
  congruence.
Qed.

End FurtherFacts.

(** On [None] the conversion raises TypeError, which the handler for
    ValueError does not catch: the totality below is about strings. *)
Remark getNumericVal_None : getNumericVal VNone = Raise TypeError.
Proof. reflexivity. Qed.

(** The examples of the specification, and two with digits outside ASCII
    (ARABIC-INDIC DIGIT THREE is U+0663). *)
Example normalize_age_45 : getNumericVal (VStr (u "45")) = Return (VInt 45).
Proof. reflexivity. Qed.

Example normalize_age_33 :
  getNumericVal (VStr (u "age-33")) = Return (VInt 33).
Proof. reflexivity. Qed.

Example normalize_age_thirty :
  getNumericVal (VStr (u "thirty")) = Return VNone.
Proof. reflexivity. Qed.

Example normalize_age_empty : getNumericVal (VStr (u "")) = Return VNone.
Proof. reflexivity. Qed.

Example normalize_age_arabic :
  getNumericVal (VStr (u "age-" ++ [0x663; 0x663])) = Return (VInt 33)
  /\ getNumericVal (VStr [0x663; 0x663]) = Return (VInt 33).
Proof. split; reflexivity. Qed.

Example normalize_age_underscore :
  getNumericVal (VStr (u "1_000")) = Return (VInt 1000)
  /\ getNumericVal (VStr (u "1__000")) = Return VNone
  /\ getNumericVal (VStr (u "age-3_3")) = Return VNone.
Proof. repeat split; reflexivity. Qed.

Example normalize_gender_examples :
  deriveGender (VStr (u "Mr.")) = Return (VStr (u "male"))
  /\ deriveGender (VStr (u "Mrs.")) = Return (VStr (u "female"))
  /\ deriveGender (VStr (u "Dr.")) = Return (VStr (u "unknown"))
  /\ deriveGender (VStr (u "")) = Return (VStr (u "unknown")).
Proof. repeat split; reflexivity. Qed.

(** * The claims *)

(** C1, as stated, fails: the string [-5] is parsed by [int], and the
    normalized age is the negative integer -5. *)
Lemma C1_negative_age :
  getNumericVal (VStr (u "-5")) = Return (VInt (-5))
  /\ ~ nonnegative_or_None (getNumericVal (VStr (u "-5"))).
Proof.
  assert (E : getNumericVal (VStr (u "-5")) = Return (VInt (-5)))
    by reflexivity.
  split; [exact E|]. rewrite E. intros [H|(z & Hz & H)].
  - discriminate H.
  - injection H as <-. lia.
Qed.

(** C1, amended: for every input string the result of [getNumericVal] is an
    integer or [None], and it is negative only when the string is an integer
    literal with a minus sign, which [int] parses directly; the result of
    [deriveGender] is one of male, female and unknown. *)
Theorem C1_normalized_domains (s : str) :
  integer_or_None (getNumericVal (VStr s))
  /\ (forall z, getNumericVal (VStr s) = Return (VInt z) -> (z < 0)%Z ->
      exists ws1 ds ws2,
        s = ws1 ++ [ord "-"] ++ ds ++ ws2
        /\ forallb int_space ws1 = true /\ forallb int_space ws2 = true
        /\ numeral ds /\ z = (- numeral_value ds)%Z)
  /\ gender_token (deriveGender (VStr s)).
Proof.
  split; [|split; [|apply deriveGender_token]].
  - destruct (getNumericVal_cases s)
      as [(z & _ & ->)|[(ds & _ & _ & ->)|(_ & _ & ->)]];
      unfold integer_or_None; eauto.
  - intros z Hz Hneg.
    destruct (getNumericVal_cases s)
      as [(z' & Hint & H)|[(ds & _ & _ & H)|(_ & _ & H)]];
      rewrite H in Hz; [|injection Hz as <-|discriminate Hz].
    + injection Hz as ->. apply int_literal_spec in Hint
        as (ws1 & sg & sgn & ds & ws2 & -> & H1 & H2 & Hsg & Hds & ->).
      pose proof (digits_value_nonneg (filter not_underscore ds)) as Hpos.
      fold (numeral_value ds) in Hpos.
      destruct Hsg; [lia|lia|].
      exists ws1, ds, ws2. repeat split; auto.
    + pose proof (digits_value_nonneg ds). lia.
Qed.

Lemma C1_normalized_domains_witness :
  exists ws1 ds ws2,
    u "-5" = ws1 ++ [ord "-"] ++ ds ++ ws2
    /\ forallb int_space ws1 = true /\ forallb int_space ws2 = true
    /\ numeral ds /\ (-5)%Z = (- numeral_value ds)%Z.
Proof.
  apply (proj1 (proj2 (C1_normalized_domains (u "-5"))) (-5)%Z);
    [reflexivity|lia].
Defined.

(** C2, as stated, fails: [ 45] is a value with extra white space, and the
    result is the integer 45, since [int] skips the white space around a
    number. *)
Lemma C2_padded_integer :
  extra_whitespace (u " 45") = true
  /\ getNumericVal (VStr (u " 45")) = Return (VInt 45)
  /\ getNumericVal (VStr (u " 45")) <> Return VNone.
Proof.
  assert (E : getNumericVal (VStr (u " 45")) = Return (VInt 45))
    by reflexivity.
  split; [reflexivity|]. split; [exact E|]. rewrite E. discriminate.
Qed.

(** C2, amended: for every input string that is neither an integer literal
    as [int] reads it nor the prefix [age-], one or more digits and at most
    one final line break, [getNumericVal] returns [None] and raises
    nothing.  The empty string is such a string, and so is all non-numeric
    garbage: every string with a character that is not white space, a sign,
    a digit or an underscore and that does not start with [age-].  A value
    with extra white space returns [None] exactly when it is such a string,
    that is, when it is not an integer literal and not an age token with one
    line break after it: a number with white space around it returns the
    number when none of the white space is a separator U+001C..U+001F, and
    every string with one of these separators in it returns [None]. *)
Theorem C2_fall_through :
  (forall s,
      (forall z, ~ int_literal s z) ->
      (forall ds, ~ matches_age_pattern s ds) ->
      getNumericVal (VStr s) = Return VNone)
  /\ getNumericVal (VStr []) = Return VNone
  /\ (forall s,
        forallb literal_char s = false -> firstn 4 s <> u "age-" ->
        getNumericVal (VStr s) = Return VNone)
  /\ (forall s,
        extra_whitespace s = true ->
        (getNumericVal (VStr s) = Return VNone <->
         (forall z, ~ int_literal s z)
         /\ (forall ds, decimal_digits ds -> s <> u "age-" ++ ds ++ [10])))
  /\ (forall ws1 sg sgn ds ws2,
        forallb plain_space ws1 = true -> forallb plain_space ws2 = true ->
        sign sg sgn -> decimal_digits ds ->
        getNumericVal (VStr (ws1 ++ sg ++ ds ++ ws2))
        = Return (VInt (sgn * digits_value ds)))
  /\ (forall s,
        existsb separator s = true ->
        getNumericVal (VStr s) = Return VNone).
Proof.
  assert (general : forall s,
             (forall z, ~ int_literal s z) ->
             (forall ds, ~ matches_age_pattern s ds) ->
             getNumericVal (VStr s) = Return VNone).
  { intros s Hl Hm.
    apply getNumericVal_none; [now apply not_literal_raises|].
    now apply no_match_None. }
  split; [exact general|]. split; [reflexivity|]. split; [|split; [|split]].
  - intros s Hc Hp. apply general.
    + intros z Hz. apply literal_alphabet in Hz. congruence.
    + intros ds (tail & -> & _). now apply Hp.
  - intros s Hws. split.
    + intros H. destruct (getNumericVal_cases s)
        as [(z' & _ & H')|[(ds & _ & _ & H')|(Hint & Hm & _)]];
        try (rewrite H' in H; discriminate H).
      split; [now apply raises_not_literal|].
      intros ds Hds ->. apply (None_not_matched _ Hm ds).
      exists [10]. auto.
    + intros [Hl Hnl]. apply general; [exact Hl|].
      intros ds (tail & -> & Hds & [-> | ->]).
      * rewrite app_nil_r, (age_token_trimmed ds Hds) in Hws.
        discriminate Hws.
      * now apply (Hnl ds Hds).
  - intros ws1 sg sgn ds ws2 H1 H2 Hsg Hds.
    apply getNumericVal_int, int_literal_spec.
    destruct (digits_numeral ds Hds) as [Hnum Hval].
    exists ws1, sg, sgn, ds, ws2. rewrite Hval.
    repeat split; auto.
    + now rewrite forallb_int_space_plain.
    + now rewrite forallb_int_space_plain.
  - exact separator_None.
Qed.

Lemma C2_fall_through_witness :
  getNumericVal (VStr (u "4 5")) = Return VNone
  /\ getNumericVal (VStr (u "thirty")) = Return VNone
  /\ getNumericVal (VStr (u " age-33")) = Return VNone
  /\ getNumericVal (VStr (u "age-33 ")) = Return VNone
  /\ getNumericVal (VStr (u " 45 ")) = Return (VInt 45)
  /\ getNumericVal (VStr (28 :: u "45")) = Return VNone.
Proof.
  destruct C2_fall_through as (general & _ & garbage & ws & padded & sep).
  split; [|split; [|split; [|split; [|split]]]].
  - apply general.
    + apply raises_not_literal. reflexivity.
    + apply None_not_matched. reflexivity.
  - apply garbage; [reflexivity|discriminate].
  - apply garbage; [reflexivity|discriminate].
  - apply (proj2 (ws (u "age-33 ") eq_refl)). split.
    + apply raises_not_literal. reflexivity.
    + intros ds _ E. apply (f_equal (fun l => last l 0)) in E.
      cbv beta in E. rewrite app_assoc, last_last in E.
      vm_compute in E. discriminate E.
  - apply (padded (u " ") [] 1%Z (u "45") (u " "));
      [reflexivity|reflexivity|apply sign_none|].
    split; [discriminate|repeat constructor].
  - apply sep. reflexivity.
Defined.

(** C3: for every input string both functions return a value of their
    output domain, an integer or [None] and one of the three gender tokens;
    neither raises. *)
Theorem C3_total (s : str) :
  integer_or_None (getNumericVal (VStr s))
  /\ gender_token (deriveGender (VStr s)).
Proof.
  split; [|apply deriveGender_token].
  destruct (getNumericVal_cases s)
    as [(z & _ & ->)|[(ds & _ & _ & ->)|(_ & _ & ->)]];
    unfold integer_or_None; eauto.
Qed.

(** C4: for every input string that is a base-10 integer literal, which is
    when [int] returns, [getNumericVal] returns the integer it denotes. *)
Theorem C4_direct_integer (s : str) (z : Z) :
  int_literal s z ->
  builtins.int (VStr s) = Return z
  /\ getNumericVal (VStr s) = Return (VInt z).
Proof.
  intros H. apply int_literal_spec in H.
  split; [exact H|now apply getNumericVal_int].
Qed.

Lemma C4_direct_integer_witness :
  getNumericVal (VStr (u "45")) = Return (VInt 45).
Proof.
  apply (C4_direct_integer (u "45") 45).
  exists [], [], 1%Z, (u "45"), []. repeat split.
  - apply sign_none.
  - apply numeral_cons; [reflexivity|]. apply numeral_digit. reflexivity.
Defined.

(** C5: for every input string that is the prefix [age-] followed by one or
    more decimal digits and nothing else, [int] does not parse the string
    and [getNumericVal] returns the integer that the digits denote. *)
Theorem C5_age_token (s ds : str) :
  age_token s ds ->
  builtins.int (VStr s) = Raise ValueError
  /\ getNumericVal (VStr s) = Return (VInt (digits_value ds)).
Proof.
  intros [-> Hds]. apply getNumericVal_match.
  exists []. rewrite app_nil_r. auto.
Qed.

Lemma C5_age_token_witness :
  getNumericVal (VStr (u "age-33")) = Return (VInt 33).
Proof.
  apply (C5_age_token (u "age-33") (u "33")).
  split; [reflexivity|]. split; [discriminate|]. repeat constructor.
Defined.

(** C6: [deriveGender] is a lookup by equality of strings: [Mr.] and
    [Master.] give male, [Mrs.] and [Miss.] give female, and every other
    value, [None] included, gives unknown. *)
Theorem C6_exact_lookup (col : value) :
  (col = VStr (u "Mr.") \/ col = VStr (u "Master.") ->
   deriveGender col = Return (VStr (u "male")))
  /\ (col = VStr (u "Mrs.") \/ col = VStr (u "Miss.") ->
      deriveGender col = Return (VStr (u "female")))
  /\ (col <> VStr (u "Mr.") -> col <> VStr (u "Master.") ->
      col <> VStr (u "Mrs.") -> col <> VStr (u "Miss.") ->
      deriveGender col = Return (VStr (u "unknown"))).
Proof.
  repeat split.
  - intros [-> | ->]; reflexivity.
  - intros [-> | ->]; reflexivity.
  - intros H1 H2 H3 H4. unfold deriveGender, py_in. cbn [existsb].
    assert (no : forall a, col <> VStr a -> py_eq (VStr a) col = false).
    { intros a Ha. destruct (py_eq (VStr a) col) eqn:E; [|reflexivity].
      apply py_eq_str in E. contradiction. }
    now rewrite !no by assumption.
Qed.

Lemma C6_exact_lookup_witness :
  deriveGender (VStr (u "Master.")) = Return (VStr (u "male"))
  /\ deriveGender (VStr (u "Miss.")) = Return (VStr (u "female"))
  /\ deriveGender (VStr (u "")) = Return (VStr (u "unknown"))
  /\ deriveGender (VStr (u "Dr.")) = Return (VStr (u "unknown"))
  /\ deriveGender (VStr (u "mr.")) = Return (VStr (u "unknown"))
  /\ deriveGender (VStr (u "Mrs")) = Return (VStr (u "unknown"))
  /\ deriveGender VNone = Return (VStr (u "unknown")).
Proof.
  split; [apply (proj1 (C6_exact_lookup _)); right; reflexivity|].
  split; [apply (proj1 (proj2 (C6_exact_lookup _))); right; reflexivity|].
  repeat split; apply (proj2 (proj2 (C6_exact_lookup _))); discriminate.
Defined.

(** C7: [deriveGender] maps each of its three output tokens to unknown, so
    applying it to its own result gives unknown for every input. *)
Theorem C7_reapplied :
  deriveGender (VStr (u "male")) = Return (VStr (u "unknown"))
  /\ deriveGender (VStr (u "female")) = Return (VStr (u "unknown"))
  /\ deriveGender (VStr (u "unknown")) = Return (VStr (u "unknown"))
  /\ forall col,
       (g <- deriveGender col ;; deriveGender g)
       = Return (VStr (u "unknown")).
Proof.
  repeat (split; [reflexivity|]). intros col.
  destruct (deriveGender_token col) as [-> |[-> | ->]]; reflexivity.
Qed.

(** C8: for every string made of the prefix [age-], one or more decimal
    digits and one line break at the end, [getNumericVal] returns the
    integer that the digits denote, since the end anchor of the pattern
    also matches before a final line break. *)
Theorem C8_trailing_newline (ds : str) :
  decimal_digits ds ->
  getNumericVal (VStr (u "age-" ++ ds ++ [10]))
  = Return (VInt (digits_value ds)).
Proof.
  intros Hds. apply getNumericVal_match. exists [10]. auto.
Qed.

Lemma C8_trailing_newline_witness :
  getNumericVal (VStr (u "age-33" ++ [10])) = Return (VInt 33).
Proof.
  apply (C8_trailing_newline (u "33")).
  split; [discriminate|]. repeat constructor.
Defined.

(** C9: whenever the pattern matches, group 1 is a string of one or more
    decimal digits and [int] converts it, so the inner handler for
    ValueError is never entered and [getNumericVal] returns the integer. *)
Theorem C9_inner_conversion (s : str) (m : Sre.Match) :
  re.match_ age_pattern (VStr s) = Return (Some m) ->
  exists ds,
    Sre.group m 1 = Return (VStr ds) /\ decimal_digits ds
    /\ builtins.int (VStr ds) = Return (digits_value ds)
    /\ getNumericVal (VStr s) = Return (VInt (digits_value ds)).
Proof.
  intros Hm. apply match_age_spec in Hm as (ds & tail & -> & Hds & Ht & ->).
  exists ds. repeat split; try apply Hds.
  - apply group_age_match.
  - now apply int_digits.
  - apply getNumericVal_match. exists tail. auto.
Qed.

Lemma C9_inner_conversion_witness :
  exists ds,
    Sre.group (age_match (u "age-0033") 4) 1 = Return (VStr ds)
    /\ decimal_digits ds
    /\ builtins.int (VStr ds) = Return (digits_value ds)
    /\ getNumericVal (VStr (u "age-0033")) = Return (VInt (digits_value ds)).
Proof.
  apply (C9_inner_conversion (u "age-0033")). reflexivity.
Defined.

(** C10: for every string that is a plus sign followed by one or more
    decimal digits, [getNumericVal] returns the integer that the digits
    denote. *)
Theorem C10_plus_sign (ds : str) :
  decimal_digits ds ->
  getNumericVal (VStr (ord "+" :: ds)) = Return (VInt (digits_value ds)).
Proof.
  intros Hds. apply getNumericVal_int, int_literal_spec.
  replace (digits_value ds) with (1 * digits_value ds)%Z by lia.
  apply (signed_digits_literal [ord "+"] 1%Z ds sign_plus Hds).
Qed.

Lemma C10_plus_sign_witness :
  getNumericVal (VStr (u "+45")) = Return (VInt 45).
Proof.
  apply (C10_plus_sign (u "45")).
  split; [discriminate|]. repeat constructor.
Defined.


(** * Further properties of the normaliser *)




(** X3: the call [re.match] with the notebook's pattern gives [None]
    exactly when the string is not [age-], one or more digits and at most
    one final line break; when it is, group 1 is the digits and the whole
    match is the prefix and the digits, without the line break. *)
Theorem match_call_language (s : str) :
  (re.match_ age_pattern (VStr s) = Return None <->
   forall ds, ~ matches_age_pattern s ds)
  /\ (forall ds, matches_age_pattern s ds ->
      exists m,
        re.match_ age_pattern (VStr s) = Return (Some m)
        /\ Sre.group m 1 = Return (VStr ds)
        /\ Sre.group m 0 = Return (VStr (u "age-" ++ ds))).
Proof.
  split; [split|].
  - intros H ds (tail & Hs & Hds & Ht).
    assert (E : re.match_ age_pattern (VStr s)
                = Return (Some (age_match s (length ds))))
      by (apply match_age_spec; exists ds, tail; auto).
    congruence.
  - apply no_match_None.
  - intros ds (tail & -> & Hds & Ht).
    exists (age_match (u "age-" ++ ds ++ tail) (length ds)).
    split; [apply match_age_spec; exists ds, tail; auto|].
    split; [apply group_age_match|apply group_whole_match].
Qed.

Lemma match_call_language_witness :
  exists m,
    re.match_ age_pattern (VStr (u "age-33" ++ [10])) = Return (Some m)
    /\ Sre.group m 1 = Return (VStr (u "33"))
    /\ Sre.group m 0 = Return (VStr (u "age-33")).
Proof.
  apply (proj2 (match_call_language (u "age-33" ++ [10])) (u "33")).
  exists [10]. split; [reflexivity|]. split; [|now right].
  split; [discriminate|]. repeat constructor.
Defined.

(** X4: applying [getNumericVal] to its own result returns the same integer
    when the result is an integer, and raises TypeError when the result is
    [None]: the conversion of [None] fails with an exception that the
    handler does not catch. *)
Theorem getNumericVal_reapplied (s : str) :
  (exists z,
      getNumericVal (VStr s) = Return (VInt z)
      /\ (v <- getNumericVal (VStr s) ;; getNumericVal v)
         = Return (VInt z))
  \/ (getNumericVal (VStr s) = Return VNone
      /\ (v <- getNumericVal (VStr s) ;; getNumericVal v)
         = Raise TypeError).
Proof.
  destruct (getNumericVal_cases s)
    as [(z & _ & H)|[(ds & _ & _ & H)|(_ & _ & H)]]; rewrite H.
  - left. exists z. split; reflexivity.
  - left. exists (digits_value ds). split; reflexivity.
  - right. split; reflexivity.
Qed.

(** X5: the magnitude of an integer result is below ten to the length of
    the input, so every input of at most nine characters gives a value in
    the range of the declared [IntegerType]; ten characters are enough to
    leave that range. *)
Theorem getNumericVal_magnitude :
  (forall s z,
      getNumericVal (VStr s) = Return (VInt z) ->
      (Z.abs z < 10 ^ Z.of_nat (length s))%Z
      /\ ((length s <= 9)%nat -> fits_IntegerType z))
  /\ (length (u "9999999999") = 10%nat
      /\ exists z,
           getNumericVal (VStr (u "9999999999")) = Return (VInt z)
           /\ ~ fits_IntegerType z).
Proof.
  split.
  - intros s z H.
    assert (Hb : (Z.abs z < 10 ^ Z.of_nat (length s))%Z).
    { destruct (getNumericVal_cases s)
        as [(z' & Hint & H')|[(ds & Hm & _ & H')|(_ & _ & H')]];
        rewrite H' in H; [| |discriminate H]; injection H as <-.
      - apply int_literal_spec in Hint
          as (ws1 & sg & sgn & ds & ws2 & -> & _ & _ & Hsg & _ & ->).
        pose proof (numeral_value_lt ds) as [Hlo Hhi].
        assert (Hlen : (10 ^ Z.of_nat (length ds)
                        <= 10 ^ Z.of_nat (length (ws1 ++ sg ++ ds ++ ws2)))%Z).
        { apply Z.pow_le_mono_r; [lia|]. rewrite !length_app. lia. }
        destruct Hsg; lia.
      - destruct Hm as (tail & -> & _ & _).
        pose proof (digits_value_nonneg ds).
        pose proof (digits_value_lt ds).
        assert (Hlen : (10 ^ Z.of_nat (length ds)
                        <= 10 ^ Z.of_nat (length (u "age-" ++ ds ++ tail)))%Z).
        { apply Z.pow_le_mono_r; [lia|]. rewrite !length_app. lia. }
        lia. }
    split; [exact Hb|]. intros Hlen. unfold fits_IntegerType.
    assert (Hp : (10 ^ Z.of_nat (length s) <= 10 ^ 9)%Z)
      by (apply Z.pow_le_mono_r; lia).
    change (10 ^ 9)%Z with 1000000000%Z in Hp.
    change (2 ^ 31)%Z with 2147483648%Z. lia.
  - split; [reflexivity|]. exists 9999999999%Z. split; [reflexivity|].
    unfold fits_IntegerType. change (2 ^ 31)%Z with 2147483648%Z. lia.
Qed.

Lemma getNumericVal_magnitude_witness : fits_IntegerType 123456789.
Proof.
  apply (proj1 getNumericVal_magnitude (u "123456789") 123456789%Z);
    [reflexivity|simpl; lia].
Defined.

(** X6: a string that contains a character which is not white space, a
    sign, a decimal digit or an underscore, and that does not start with
    [age-], gives [None]. *)
Theorem getNumericVal_garbage (s : str) :
  forallb literal_char s = false -> firstn 4 s <> u "age-" ->
  getNumericVal (VStr s) = Return VNone.
Proof.
  intros Hc Hp. apply getNumericVal_none.
  - apply not_literal_raises. intros z Hz.
    apply literal_alphabet in Hz. congruence.
  - apply no_match_None. intros ds (tail & -> & _). now apply Hp.
Qed.

Lemma getNumericVal_garbage_witness :
  getNumericVal (VStr (u "33 years")) = Return VNone
  /\ getNumericVal (VStr (u "Age-33")) = Return VNone.
Proof.
  split; apply getNumericVal_garbage; solve [reflexivity|discriminate].
Defined.

(** X7: after the prefix [age-] and any digits, a remainder that starts
    with something other than a digit and is not one final line break
    makes the result [None]: the pattern allows nothing else after the
    digits. *)
Theorem age_token_remainder (ds tail : str) :
  Forall (fun ch => Unicode.Py_UNICODE_ISDECIMAL ch = true) ds ->
  tail <> [] -> tail <> [10] ->
  Unicode.Py_UNICODE_ISDECIMAL (hd 0 tail) = false ->
  getNumericVal (VStr (u "age-" ++ ds ++ tail)) = Return VNone.
Proof. apply age_tail_None. Qed.

Lemma age_token_remainder_witness :
  getNumericVal (VStr (u "age-33 years")) = Return VNone
  /\ getNumericVal (VStr (u "age-33" ++ [10; 10])) = Return VNone.
Proof.
  split.
  - apply (age_token_remainder (u "33") (u " years"));
      solve [repeat constructor|discriminate|reflexivity].
  - apply (age_token_remainder (u "33") [10; 10]);
      solve [repeat constructor|discriminate|reflexivity].
Defined.

(** X8: one underscore between two runs of digits is accepted in a number
    that stands alone, which then denotes the digits without it, and is
    rejected inside an age token. *)
Theorem getNumericVal_underscore (ds1 ds2 : str) :
  decimal_digits ds1 -> decimal_digits ds2 ->
  getNumericVal (VStr (ds1 ++ ord "_" :: ds2))
  = Return (VInt (digits_value (ds1 ++ ds2)))
  /\ getNumericVal (VStr (u "age-" ++ ds1 ++ ord "_" :: ds2))
     = Return VNone.
Proof.
  intros H1 H2. split.
  - apply getNumericVal_int, int_literal_spec.
    exists [], [], 1%Z, (ds1 ++ 95 :: ds2), []. rewrite app_nil_r.
    repeat split; [apply sign_none| |].
    + apply numeral_app_underscore; [exact H1|]. now apply digits_numeral.
    + unfold numeral_value. rewrite filter_app. cbn [filter].
      change (not_underscore 95) with false. cbn iota.
      rewrite !filter_decimal by (apply H1 || apply H2). lia.
  - apply age_tail_None; [apply H1|discriminate|discriminate|reflexivity].
Qed.

Lemma getNumericVal_underscore_witness :
  getNumericVal (VStr (u "1_000")) = Return (VInt 1000)
  /\ getNumericVal (VStr (u "age-1_000")) = Return VNone.
Proof.
  apply (getNumericVal_underscore (u "1") (u "000"));
    (split; [discriminate|repeat constructor]).
Defined.

(** X9: zeros in front of the digits do not change the result, in a number
    that stands alone and in an age token. *)
Theorem getNumericVal_leading_zeros (zs ds : str) :
  Forall zero_digit zs -> decimal_digits ds ->
  getNumericVal (VStr (zs ++ ds)) = Return (VInt (digits_value ds))
  /\ getNumericVal (VStr (u "age-" ++ zs ++ ds))
     = Return (VInt (digits_value ds)).
Proof.
  intros Hz [Hne Hd].
  assert (Hall : decimal_digits (zs ++ ds)).
  { split; [intros E; apply app_eq_nil in E; tauto|].
    apply Forall_app. split; [|exact Hd].
    eapply Forall_impl; [|exact Hz]. now intros ch [H _]. }
  assert (Hval : digits_value (zs ++ ds) = digits_value ds)
    by (rewrite digits_value_app, (digits_value_zeros zs Hz); lia).
  rewrite <- Hval. split.
  - now apply getNumericVal_int, int_digits.
  - assert (Hm : matches_age_pattern (u "age-" ++ zs ++ ds) (zs ++ ds)).
    { exists []. rewrite app_nil_r. auto. }
    apply (getNumericVal_match _ _ Hm).
Qed.

Lemma getNumericVal_leading_zeros_witness :
  getNumericVal (VStr (u "007")) = Return (VInt 7)
  /\ getNumericVal (VStr (u "age-007")) = Return (VInt 7).
Proof.
  apply (getNumericVal_leading_zeros (u "00") (u "7")).
  - repeat constructor.
  - split; [discriminate|repeat constructor].
Defined.

(** X10: a minus sign before the digits negates a number that stands
    alone; an age token takes no sign, and with a plus or a minus sign
    after the prefix the result is [None]. *)
Theorem getNumericVal_sign (sg : str) (sgn : Z) (ds : str) :
  sign sg sgn -> sg <> [] -> decimal_digits ds ->
  getNumericVal (VStr (sg ++ ds)) = Return (VInt (sgn * digits_value ds))
  /\ getNumericVal (VStr (u "age-" ++ sg ++ ds)) = Return VNone.
Proof.
  intros Hsg Hne Hds. split.
  - apply getNumericVal_int, int_literal_spec.
    now apply signed_digits_literal.
  - change (u "age-" ++ sg ++ ds) with (u "age-" ++ [] ++ sg ++ ds).
    apply age_tail_None; [constructor| | |];
      destruct Hsg; try contradiction; try discriminate; reflexivity.
Qed.

Lemma getNumericVal_sign_witness :
  getNumericVal (VStr (u "-45")) = Return (VInt (-45))
  /\ getNumericVal (VStr (u "age--45")) = Return VNone.
Proof.
  apply (getNumericVal_sign [ord "-"] (-1)%Z (u "45")).
  - apply sign_minus.
  - discriminate.
  - split; [discriminate|repeat constructor].
Defined.

(** X11: [deriveGender] does no trimming: a salutation that starts or ends
    with white space gives unknown. *)
Theorem deriveGender_untrimmed (s : str) :
  extra_whitespace s = true ->
  deriveGender (VStr s) = Return (VStr (u "unknown")).
Proof.
  intros Hs. unfold deriveGender, py_in. cbn [existsb].
  assert (no : forall a, extra_whitespace a = false ->
               py_eq (VStr a) (VStr s) = false).
  { intros a Ha. destruct (py_eq (VStr a) (VStr s)) eqn:E; [|reflexivity].
    apply py_eq_str in E. injection E as ->. congruence. }
  now rewrite !no by reflexivity.
Qed.

Lemma deriveGender_untrimmed_witness :
  deriveGender (VStr (u " Mr.")) = Return (VStr (u "unknown"))
  /\ deriveGender (VStr (u "Mrs. ")) = Return (VStr (u "unknown")).
Proof. split; apply deriveGender_untrimmed; reflexivity. Defined.
